(** * XGBoostPredictor._predict_pandas

    A shallow embedding of [python/ray/train/xgboost/xgboost_predictor.py]:
    the choice of the feature columns, the keyword arguments handed to
    [xgboost.DMatrix], and the naming of the columns of the returned
    frame. *)

From Stdlib Require Import ZArith.
From stdpp Require Import gmap strings list pretty.

Open Scope Z_scope.
Open Scope nat_scope.
Open Scope string_scope.

(** ** Python exceptions as results *)

Inductive exn :=
  | KeyError
  | IndexError
  | ValueError
  | LibraryError (msg : string).

Inductive result (A : Type) :=
  | Ok (a : A)
  | Raise (e : exn).
Arguments Ok {A} a.
Arguments Raise {A} e.

Global Instance result_ret : MRet result := λ A a, Ok a.
Global Instance result_bind : MBind result := λ A B k r,
  match r with
  | Ok a => k a
  | Raise e => Raise e
  end.
Global Instance result_fmap : FMap result := λ A B f r,
  match r with
  | Ok a => Ok (f a)
  | Raise e => Raise e
  end.

(** ** Column labels

    [feature_columns] is typed [Union[List[str], List[int]]], and the labels of
    a frame's column index are strings or integers likewise. *)

Inductive label :=
  | LStr (s : string)
  | LInt (i : Z).

Global Instance label_eq_dec : EqDecision label.
Proof. solve_decision. Defined.

(** [isinstance(fc, str)] *)
Definition isinstance_str (fc : label) : bool :=
  match fc with
  | LStr _ => true
  | LInt _ => false
  end.

(** [all(isinstance(fc, str) for fc in feature_columns)] *)
Definition all_str (feature_columns : list label) : bool :=
  forallb isinstance_str feature_columns.

(** Truth value of a Python list: [bool(l)] is [len(l) != 0]. *)
Definition truthy_list {A} (l : list A) : bool :=
  match l with
  | [] => false
  | _ :: _ => true
  end.

(** Truth value of an [Optional[List]]: [None] is false as well. *)
Definition truthy_opt_list {A} (o : option (list A)) : bool :=
  match o with
  | None => false
  | Some l => truthy_list l
  end.

(** ** numpy arrays: a shape and the elements in row-major order *)

Section Arrays.
Context {V : Type}.

Record ndarray := { shape : list nat; items : list V }.

(** numpy's rule for one integer index on an axis of length [n], for an
    index that fits the machine's index type and a result that is not
    empty: negative indices count from the end, anything else out of range
    raises [IndexError]. *)
Definition normalize_index (n : nat) (i : Z) : result nat :=
  if bool_decide (0 ≤ i < Z.of_nat n)%Z then Ok (Z.to_nat i)
  else if bool_decide (- Z.of_nat n ≤ i < 0)%Z then Ok (Z.to_nat (i + Z.of_nat n))
  else Raise IndexError.

(** An index that is not an integer (a string) raises [IndexError]. *)
Definition axis_index (n : nat) (l : label) : result nat :=
  match l with
  | LInt i => normalize_index n i
  | LStr _ => Raise IndexError
  end.

(** The [p] elements of block number [k]. *)
Definition block (p : nat) (xs : list V) (k : nat) : list V :=
  take p (drop (k * p) xs).

(** The elements of [a[:, js]] for an array with [m] rows, [n] entries
    along the second axis and [p] elements in each entry. *)
Definition gather (m n p : nat) (xs : list V) (js : list nat) : list V :=
  r ← seq 0 m; j ← js; block p xs (r * n + j).

(** [a[:, idx]] with a list as index: fancy indexing along axis 1. *)
Definition take_columns (a : ndarray) (idx : list label) : result ndarray :=
  match shape a with
  | m :: n :: rest =>
      js ← mapM (axis_index n) idx;
      Ok {| shape := m :: length js :: rest;
            items := gather m n (foldr Nat.mul 1 rest) (items a) js |}
  | _ => Raise IndexError
  end.
End Arrays.
Arguments ndarray V : clear implicits.

(** ** pandas frames

    A frame is its column index and its cells, a two-dimensional array with
    one column per label. Labels need not be unique. *)

Section Frames.
Context {V : Type}.

Record DataFrame := { columns : list label; values : ndarray V }.

(** [len(df)] *)
Definition frame_rows (df : DataFrame) : nat :=
  match shape (values df) with
  | m :: _ => m
  | [] => 0
  end.

(** [key in df] looks the key up in the column index. *)
Definition frame_contains (key : label) (df : DataFrame) : bool :=
  bool_decide (key ∈ columns df).

(** Every position at which [key] labels a column, in column order. *)
Fixpoint positions_from (i : nat) (key : label) (cols : list label) : list nat :=
  match cols with
  | [] => []
  | c :: cols' =>
      if bool_decide (c = key) then i :: positions_from (S i) key cols'
      else positions_from (S i) key cols'
  end.

Definition positions (key : label) (cols : list label) : list nat :=
  positions_from 0 key cols.

(** A label that names no column raises [KeyError]. *)
Definition locate (cols : list label) (key : label) : result (list nat) :=
  match positions key cols with
  | [] => Raise KeyError
  | js => Ok js
  end.

(** The columns at positions [js], as a frame. *)
Definition take_frame (df : DataFrame) (js : list nat) : DataFrame :=
  {| columns := omap (λ j, columns df !! j) js;
     values := {| shape := [frame_rows df; length js];
                  items := gather (frame_rows df) (length (columns df)) 1
                             (items (values df)) js |} |}.

(** [df[keys]] with a list of labels: every column so labelled, in the
    order of the request. *)
Definition getitem_list (df : DataFrame) (keys : list label) : result DataFrame :=
  jss ← mapM (locate (columns df)) keys;
  Ok (take_frame df (concat jss)).

(** [df[key]] with one label is a series when the label names one column
    and a frame when it names several. *)
Inductive selection :=
  | Series (cells : list V)
  | Frame (df : DataFrame).

Definition getitem (df : DataFrame) (key : label) : result selection :=
  js ← locate (columns df) key;
  match js with
  | [j] => Ok (Series (items (values (take_frame df [j]))))
  | _ => Ok (Frame (take_frame df js))
  end.

(** [RangeIndex(n)], the default labels [0, ..., n-1]. *)
Definition RangeIndex (n : nat) : list label :=
  (λ i, LInt (Z.of_nat i)) <$> seq 0 n.

(** [pd.DataFrame(a)] on an array: one dimension gives a single column,
    two dimensions give a column per entry of the second axis, anything
    else is refused. *)
Definition pd_DataFrame (a : ndarray V) : result DataFrame :=
  match shape a with
  | [m] => Ok {| columns := RangeIndex 1;
                 values := {| shape := [m; 1]; items := items a |} |}
  | [m; n] => Ok {| columns := RangeIndex n; values := a |}
  | _ => Raise ValueError
  end.

(** [df.columns = names]: the new index must have as many labels as the
    frame has columns. *)
Definition set_columns (df : DataFrame) (names : list label) : result DataFrame :=
  if bool_decide (length names = length (columns df))
  then Ok {| columns := names; values := values df |}
  else Raise ValueError.
End Frames.
Arguments DataFrame V : clear implicits.
Arguments selection V : clear implicits.

(** ** The predictor *)

Section XGBoostPredictor.
(** [V]: what an array or a frame holds. [Any]: the values of keyword
    arguments the predictor only forwards. [DMatrix], [Booster],
    [Preprocessor]: the objects of xgboost and of the data layer. *)
Context {V Any DMatrix Booster Preprocessor : Type}.

(** [ray.air.constants.TENSOR_COLUMN_NAME], the label of the column that
    holds a batch of tensors. *)
Variable TENSOR_COLUMN_NAME : string.

(** [Series.to_numpy()]: a column of scalars becomes a one-dimensional
    array; a column of tensors is stacked along a new first axis. *)
Variable series_to_numpy : list V → ndarray V.

(** [DataFrame.to_numpy()] converts every cell to the common dtype of the
    frame's columns. A cell carries its dtype: [astype_common cells] is the
    conversion applied in a frame that holds [cells]. *)
Variable astype_common : list V → V → V.

(** A keyword argument of [xgboost.DMatrix]: [feature_names] is a list
    of labels; the predictor does not look at the others. *)
Inductive kwarg :=
  | KwLabels (names : list label)
  | KwAny (a : Any).

(** [xgboost.DMatrix(data, **kwargs)] and [Booster.predict(matrix, **kwargs)] *)
Variable xgboost_DMatrix : ndarray V → gmap string kwarg → result DMatrix.
Variable Booster_predict : Booster → DMatrix → gmap string Any → result (ndarray V).

Record XGBoostPredictor :=
  { model : Booster; preprocessor : option Preprocessor }.

(** [df.to_numpy()]: the cells of the frame in their common dtype. *)
Definition frame_to_numpy (df : DataFrame V) : ndarray V :=
  {| shape := shape (values df);
     items := astype_common (items (values df)) <$> items (values df) |}.

(** [.to_numpy()] on what [data[key]] returned. *)
Definition to_numpy (s : selection V) : ndarray V :=
  match s with
  | Series cells => series_to_numpy cells
  | Frame df => frame_to_numpy df
  end.

(** [dmatrix_kwargs or {}]: [None] and the empty dict both give a fresh
    empty dict; a dict with entries is used as it is. *)
Definition dict_or_empty (d : option (gmap string kwarg)) : gmap string kwarg :=
  match d with
  | Some m => if bool_decide (size m = 0) then ∅ else m
  | None => ∅
  end.

(** The list behind an optional list that was found truthy. *)
Definition the_list {A} (o : option (list A)) : list A := default [] o.

(** The three-way branch of [_predict_pandas]: the array to predict on and
    the value of the local [feature_names] when the branch is left. *)
Definition select_features (data : DataFrame V)
    (feature_columns : option (list label))
    : result (ndarray V * option (list label)) :=
  if frame_contains (LStr TENSOR_COLUMN_NAME) data then
    column ← getitem data (LStr TENSOR_COLUMN_NAME);
    let data := to_numpy column in
    data ← (if truthy_opt_list feature_columns
            then take_columns data (the_list feature_columns)
            else Ok data);
    Ok (data, None)
  else if truthy_opt_list feature_columns then
    let feature_columns := the_list feature_columns in
    selected ← getitem_list data feature_columns;
    Ok (frame_to_numpy selected,
        if all_str feature_columns then Some feature_columns else None)
  else
    let feature_columns := columns data in
    Ok (frame_to_numpy data,
        if all_str feature_columns then Some feature_columns else None).

(** The positional and the keyword arguments with which
    [xgboost.DMatrix] is called, when the call is reached. *)
Definition dmatrix_call (data : DataFrame V)
    (feature_columns : option (list label))
    (dmatrix_kwargs : option (gmap string kwarg))
    : result (ndarray V * gmap string kwarg) :=
  let dmatrix_kwargs := dict_or_empty dmatrix_kwargs in
  '(data, feature_names) ← select_features data feature_columns;
  let dmatrix_kwargs :=
    if truthy_opt_list feature_names
    then <["feature_names" := KwLabels (the_list feature_names)]> dmatrix_kwargs
    else dmatrix_kwargs in
  Ok (data, dmatrix_kwargs).

(** [f"predictions_{i}"] *)
Definition predictions_i (i : nat) : label :=
  LStr ("predictions_" +:+ pretty i).

(** The labels assigned to [df.columns] for a frame of [n] columns. *)
Definition prediction_labels (n : nat) : list label :=
  if bool_decide (n = 1) then [LStr "predictions"]
  else predictions_i <$> seq 0 n.

(** [XGBoostPredictor._predict_pandas]: build the matrix, predict, wrap the
    prediction in a frame and rename its columns. An exception raised on
    the way is the result. *)
Definition _predict_pandas (self : XGBoostPredictor) (data : DataFrame V)
    (feature_columns : option (list label))
    (dmatrix_kwargs : option (gmap string kwarg))
    (predict_kwargs : gmap string Any) : result (DataFrame V) :=
  '(data, dmatrix_kwargs) ← dmatrix_call data feature_columns dmatrix_kwargs;
  matrix ← xgboost_DMatrix data dmatrix_kwargs;
  prediction ← Booster_predict (model self) matrix predict_kwargs;
  df ← pd_DataFrame prediction;
  set_columns df (prediction_labels (length (columns df))).
End XGBoostPredictor.
Arguments kwarg Any : clear implicits.
Arguments XGBoostPredictor Booster Preprocessor : clear implicits.

(** ** What the statements below speak about *)

(** A result that is a value, not an exception. *)
Definition is_ok {A} (r : result A) : bool :=
  match r with
  | Ok _ => true
  | Raise _ => false
  end.

(** The number of output columns of a prediction: one for a vector of
    scores, the length of the second axis for a matrix of scores. *)
Definition output_columns {V} (prediction : ndarray V) : option nat :=
  match shape prediction with
  | [_] => Some 1
  | [_; n] => Some n
  | _ => None
  end.

(** The feature columns a call selects: the given list when it is not
    empty, every column of the data otherwise. *)
Definition selected_columns {V} (data : DataFrame V)
    (feature_columns : option (list label)) : list label :=
  match feature_columns with
  | Some (c :: cs) => c :: cs
  | _ => columns data
  end.

(** [xgboost.DMatrix] is reached and receives the keyword [feature_names]. *)
Definition passes_feature_names {V Any} (TENSOR_COLUMN_NAME : string)
    (series_to_numpy : list V → ndarray V)
    (astype_common : list V → V → V) (data : DataFrame V)
    (feature_columns : option (list label))
    (dmatrix_kwargs : option (gmap string (kwarg Any))) : bool :=
  match dmatrix_call TENSOR_COLUMN_NAME series_to_numpy astype_common data
          feature_columns dmatrix_kwargs with
  | Ok (_, kwargs) => bool_decide (is_Some (kwargs !! "feature_names"))
  | Raise _ => false
  end.

(** ** A small instance to run the predictor on

    Cells are integers, a column of scalars converts to a vector, the
    matrix object records the arguments it was built from, and a booster is
    the number of scores it emits per row. *)
Module Fixture.
Definition TENSOR_COLUMN_NAME : string := "__value__".

Definition series_to_numpy (cells : list Z) : ndarray Z :=
  {| shape := [length cells]; items := cells |}.

(** Every cell is of the one integer dtype: nothing to convert. *)
Definition astype_common (cells : list Z) (cell : Z) : Z := cell.

Record DMatrix :=
  { dm_data : ndarray Z; dm_kwargs : gmap string (kwarg unit) }.

Definition xgboost_DMatrix (data : ndarray Z)
    (kwargs : gmap string (kwarg unit)) : result DMatrix :=
  Ok {| dm_data := data; dm_kwargs := kwargs |}.

(** The booster emits its scores as a vector when [classes] is [None] and as
    a matrix with that many columns otherwise; every score is the row
    number. *)
Definition Booster_predict (classes : option nat) (matrix : DMatrix)
    (kwargs : gmap string unit) : result (ndarray Z) :=
  let m := hd 0 (shape (dm_data matrix)) in
  match classes with
  | None => Ok {| shape := [m]; items := Z.of_nat <$> seq 0 m |}
  | Some k => Ok {| shape := [m; k];
                   items := r ← seq 0 m; replicate k (Z.of_nat r) |}
  end.

Definition predictor (classes : option nat)
    : XGBoostPredictor (option nat) unit :=
  {| model := classes; preprocessor := None |}.

Definition predict_pandas :=
  _predict_pandas (Preprocessor := unit) TENSOR_COLUMN_NAME series_to_numpy
    astype_common
    xgboost_DMatrix Booster_predict.

Definition call :=
  dmatrix_call (Any := unit) TENSOR_COLUMN_NAME series_to_numpy astype_common.

Definition passes :=
  passes_feature_names (Any := unit) TENSOR_COLUMN_NAME series_to_numpy astype_common.

(** Two rows, columns [A], [B], [C]. *)
Definition abc : DataFrame Z :=
  {| columns := [LStr "A"; LStr "B"; LStr "C"];
     values := {| shape := [2; 3]; items := [1; 2; 8; 3; 4; 9]%Z |} |}.

(** Two rows and no column at all. *)
Definition no_columns : DataFrame Z :=
  {| columns := []; values := {| shape := [2; 0]; items := [] |} |}.

(** What a booster with three scores per row returns on two rows. *)
Definition three_scores : DataFrame Z :=
  {| columns := [LStr "predictions_0"; LStr "predictions_1";
                 LStr "predictions_2"];
     values := {| shape := [2; 3]; items := [0; 0; 0; 1; 1; 1]%Z |} |}.

(** Two rows, the tensor column only. *)
Definition tensor_only : DataFrame Z :=
  {| columns := [LStr TENSOR_COLUMN_NAME];
     values := {| shape := [2; 1]; items := [5; 6]%Z |} |}.
End Fixture.

(** ** The dictionary the caller passes

    [dmatrix_kwargs or {}] keeps the caller's dict when it has entries, and
    the assignment to [dmatrix_kwargs["feature_names"]] then writes into that
    very object. The store holds the caller's dict and the dict the call
    makes for itself. *)

Section KeywordStore.
Context {V Any DMatrix Booster Preprocessor : Type}.
Variable TENSOR_COLUMN_NAME : string.
Variable series_to_numpy : list V → ndarray V.
Variable astype_common : list V → V → V.
Variable xgboost_DMatrix : ndarray V → gmap string (kwarg Any) → result DMatrix.
Variable Booster_predict : Booster → DMatrix → gmap string Any → result (ndarray V).

(** The object a name is bound to. *)
Inductive dict_ref :=
  | CallerDict
  | NewDict.

Record dict_store :=
  { caller_dict : option (gmap string (kwarg Any));
    new_dict : gmap string (kwarg Any) }.

(** [dmatrix_kwargs or {}]: the object the local name is bound to. *)
Definition or_new_dict (dmatrix_kwargs : option (gmap string (kwarg Any)))
    : dict_ref :=
  match dmatrix_kwargs with
  | Some m => if bool_decide (size m = 0) then NewDict else CallerDict
  | None => NewDict
  end.

Definition dict_read (st : dict_store) (r : dict_ref) : gmap string (kwarg Any) :=
  match r with
  | CallerDict => default ∅ (caller_dict st)
  | NewDict => new_dict st
  end.

(** [d[k] = v] on the object [r] refers to. *)
Definition dict_setitem (st : dict_store) (r : dict_ref) (k : string)
    (v : kwarg Any) : dict_store :=
  match r with
  | CallerDict => {| caller_dict := <[k:=v]> <$> caller_dict st;
                     new_dict := new_dict st |}
  | NewDict => {| caller_dict := caller_dict st;
                  new_dict := <[k:=v]> (new_dict st) |}
  end.

(** [_predict_pandas] with the store threaded through: the store when the
    call ends, by return or by exception, and the result. *)
Definition _predict_pandas_store (self : XGBoostPredictor Booster Preprocessor)
    (data : DataFrame V) (feature_columns : option (list label))
    (dmatrix_kwargs : option (gmap string (kwarg Any)))
    (predict_kwargs : gmap string Any) : dict_store * result (DataFrame V) :=
  let st := {| caller_dict := dmatrix_kwargs; new_dict := ∅ |} in
  let dmatrix_kwargs := or_new_dict dmatrix_kwargs in
  match select_features TENSOR_COLUMN_NAME series_to_numpy
    astype_common data feature_columns with
  | Raise e => (st, Raise e)
  | Ok (data, feature_names) =>
      let st :=
        if truthy_opt_list feature_names
        then dict_setitem st dmatrix_kwargs "feature_names"
               (KwLabels (the_list feature_names))
        else st in
      (st,
       matrix ← xgboost_DMatrix data (dict_read st dmatrix_kwargs);
       prediction ← Booster_predict (model self) matrix predict_kwargs;
       df ← pd_DataFrame prediction;
       set_columns df (prediction_labels (length (columns df))))
  end.
End KeywordStore.
Arguments dict_store Any : clear implicits.

(** ** An instance with a column of tensors

    A cell is a number or a row of numbers; a column of rows is stacked into
    a matrix. *)
Module TensorFixture.
Inductive cell :=
  | Scalar (z : Z)
  | Tensor (zs : list Z).

Definition TENSOR_COLUMN_NAME : string := "__value__".

Definition cell_row (c : cell) : list cell :=
  match c with
  | Scalar z => [Scalar z]
  | Tensor zs => Scalar <$> zs
  end.

Definition series_to_numpy (cells : list cell) : ndarray cell :=
  match cells with
  | Tensor zs :: _ => {| shape := [length cells; length zs];
                         items := cells ≫= cell_row |}
  | _ => {| shape := [length cells]; items := cells |}
  end.

Definition astype_common (cells : list cell) (c : cell) : cell := c.

Definition call :=
  dmatrix_call (Any := unit) TENSOR_COLUMN_NAME series_to_numpy astype_common.

(** Two rows of three features each, in the tensor column. *)
Definition batch : DataFrame cell :=
  {| columns := [LStr TENSOR_COLUMN_NAME];
     values := {| shape := [2; 1];
                  items := [Tensor [1; 2; 8]%Z; Tensor [3; 4; 9]%Z] |} |}.
End TensorFixture.

(** ** Further objects to run the predictor on *)
Module Cases.
(** A booster asked for interactions: a square of scores per row. *)
Definition predict_interactions (size : nat) (matrix : Fixture.DMatrix)
    (kwargs : gmap string unit) : result (ndarray Z) :=
  let m := hd 0 (shape (Fixture.dm_data matrix)) in
  Ok {| shape := [m; size; size]; items := replicate (m * size * size) 0%Z |}.

(** [xgboost.DMatrix] refusing its input. *)
Definition refusing_DMatrix (data : ndarray Z)
    (kwargs : gmap string (kwarg unit)) : result Fixture.DMatrix :=
  Raise (LibraryError "DMatrix").

(** Keyword arguments of a caller: a thread count, and a thread count with
    feature names. *)
Definition nthread : gmap string (kwarg unit) := {["nthread" := KwAny ()]}.

Definition named : gmap string (kwarg unit) :=
  <["feature_names" := KwLabels [LStr "f0"; LStr "f1"]]> nthread.

(** Two rows, the tensor column next to a column [A]. *)
Definition tensor_and_a : DataFrame Z :=
  {| columns := [LStr Fixture.TENSOR_COLUMN_NAME; LStr "A"];
     values := {| shape := [2; 2]; items := [5; 1; 6; 3]%Z |} |}.

(** The predictor on frames of tensors: the matrix is the array, and the
    model returns it. *)
Definition predict_tensors :=
  _predict_pandas (Any := unit) (Booster := unit) (Preprocessor := unit)
    TensorFixture.TENSOR_COLUMN_NAME TensorFixture.series_to_numpy
      TensorFixture.astype_common
    (λ data _, Ok data) (λ _ matrix _, Ok matrix).

(** The store-passing predictor, with [xgboost.DMatrix] left to choose. *)
Definition predict_pandas_store
    (DMatrix : ndarray Z → gmap string (kwarg unit) → result Fixture.DMatrix) :=
  _predict_pandas_store (Preprocessor := unit) Fixture.TENSOR_COLUMN_NAME
    Fixture.series_to_numpy Fixture.astype_common DMatrix Fixture.Booster_predict.
End Cases.

(** ** Results *)

Lemma bind_ok {A B} (r : result A) (k : A → result B) (b : B) :
  r ≫= k = Ok b ↔ ∃ a, r = Ok a ∧ k a = Ok b.
Proof.
  destruct r as [a|e]; simpl.
  - split; [intros H; by exists a | by intros (a' & [= <-] & H)].
  - split; [done | by intros (a' & ? & _)].
Qed.

Lemma is_ok_true {A} (r : result A) : is_ok r = true ↔ ∃ a, r = Ok a.
Proof.
  destruct r as [a|e]; simpl; split; try done.
  - by exists a.
  - by intros [a ?].
Qed.

Lemma mapM_is_ok {A B} (f : A → result B) (l : list A) :
  is_ok (mapM f l) = true ↔ Forall (λ a, is_ok (f a) = true) l.
Proof.
  induction l as [|a l IH]; simpl.
  - split; [constructor | done].
  - rewrite Forall_cons, <- IH. clear IH.
    destruct (f a) as [b|e]; simpl.
    + destruct (mapM f l); simpl; split; try done; by intros [_ ?].
    + split; [done | by intros [? _]].
Qed.

(** ** Truth values *)

Lemma truthy_list_true {A} (l : list A) : truthy_list l = true ↔ l ≠ [].
Proof. by destruct l. Qed.

Lemma truthy_empty_list_is_none {A} :
  truthy_opt_list (Some (@nil A)) = truthy_opt_list (@None (list A)).
Proof. reflexivity. Qed.

Lemma all_str_spec (l : list label) :
  all_str l = true ↔ ∀ c, c ∈ l → ∃ s, c = LStr s.
Proof.
  unfold all_str. rewrite forallb_forall.
  split; intros H c Hc.
  - apply list_elem_of_In, H in Hc. destruct c; [by eexists | done].
  - apply list_elem_of_In, H in Hc. by destruct Hc as [s ->].
Qed.

(** ** Looking labels up *)

Lemma positions_from_nil i key cols :
  positions_from i key cols = [] ↔ key ∉ cols.
Proof.
  revert i. induction cols as [|c cols IH]; intros i; simpl.
  - split; [intros _; apply not_elem_of_nil | done].
  - rewrite not_elem_of_cons. case_bool_decide as Hc.
    + subst. split; [done | by intros [? _]].
    + rewrite IH. split; [by intros ?; split | by intros [_ ?]].
Qed.

Lemma locate_is_ok cols key : is_ok (locate cols key) = true ↔ key ∈ cols.
Proof.
  unfold locate. destruct (positions key cols) as [|j js] eqn:E.
  - apply positions_from_nil in E. simpl. naive_solver.
  - simpl. split; [intros _|done].
    destruct (decide (key ∈ cols)) as [|Hn]; [done|].
    apply (positions_from_nil 0) in Hn. unfold positions in E. congruence.
Qed.

Lemma getitem_list_is_ok {V} (df : DataFrame V) keys :
  is_ok (getitem_list df keys) = true ↔ ∀ c, c ∈ keys → c ∈ columns df.
Proof.
  unfold getitem_list. rewrite <- Forall_forall.
  rewrite <- (Forall_iff _ keys _ (locate_is_ok (columns df))).
  rewrite <- mapM_is_ok. by destruct (mapM _ keys).
Qed.

Lemma getitem_is_ok {V} (df : DataFrame V) key :
  is_ok (getitem df key) = true ↔ frame_contains key df = true.
Proof.
  unfold frame_contains. rewrite bool_decide_eq_true, <- locate_is_ok.
  unfold getitem. destruct (locate _ _) as [[|j [|j' js]]|]; done.
Qed.

(** ** Keyword dictionaries *)

Lemma dict_or_empty_lookup {Any} (d : option (gmap string (kwarg Any))) k :
  dict_or_empty d !! k = d ≫= (.!! k).
Proof.
  destruct d as [m|]; simpl; [|done].
  case_bool_decide as Hsz; [|done].
  apply map_size_empty_iff in Hsz. by subst.
Qed.

(** ** Naming the output columns *)


Lemma length_prediction_labels n : length (prediction_labels n) = n.
Proof.
  unfold prediction_labels. case_bool_decide; [by subst|].
  by rewrite length_fmap, length_seq.
Qed.



Global Instance predictions_i_inj : Inj (=) (=) predictions_i.
Proof.
  intros i j [= H]. by apply (inj pretty).
Qed.

Lemma prediction_labels_NoDup n : NoDup (prediction_labels n).
Proof.
  unfold prediction_labels. case_bool_decide.
  - apply NoDup_singleton.
  - apply (NoDup_fmap_2 _), NoDup_seq.
Qed.

(** The assignment to [df.columns] never raises: the list built has one
    label per column of the frame. *)
Lemma set_prediction_labels {V} (df : DataFrame V) :
  set_columns df (prediction_labels (length (columns df)))
  = Ok {| columns := prediction_labels (length (columns df));
          values := values df |}.
Proof.
  unfold set_columns. by rewrite bool_decide_eq_true_2 by apply length_prediction_labels.
Qed.


Lemma pd_DataFrame_is_ok {V} (a : ndarray V) :
  is_ok (pd_DataFrame a) = true ↔ is_Some (output_columns a).
Proof.
  unfold pd_DataFrame, output_columns.
  destruct (shape a) as [|m [|n [|? ?]]]; simpl; split; try done;
    by intros [? ?].
Qed.

(** ** The predictor's choices *)

Section Properties.
Context {V Any DMatrix Booster Preprocessor : Type}.
Variable TENSOR_COLUMN_NAME : string.
Variable series_to_numpy : list V → ndarray V.
Variable astype_common : list V → V → V.
Variable xgboost_DMatrix : ndarray V → gmap string (kwarg Any) → result DMatrix.
Variable Booster_predict : Booster → DMatrix → gmap string Any → result (ndarray V).

Local Abbreviation features :=
  (select_features TENSOR_COLUMN_NAME series_to_numpy astype_common).
Local Abbreviation call :=
  (dmatrix_call (Any := Any) TENSOR_COLUMN_NAME series_to_numpy astype_common).
Local Abbreviation passes :=
  (passes_feature_names (Any := Any) TENSOR_COLUMN_NAME series_to_numpy astype_common).
Local Abbreviation predict_pandas :=
  (_predict_pandas (Preprocessor := Preprocessor) TENSOR_COLUMN_NAME
     series_to_numpy astype_common xgboost_DMatrix Booster_predict).
Local Abbreviation has_tensor_column data :=
  (frame_contains (LStr TENSOR_COLUMN_NAME) data).

(** The list the branch works with is the selection the caller asked for. *)
Lemma selected_columns_code (data : DataFrame V) feature_columns :
  selected_columns data feature_columns
  = if truthy_opt_list feature_columns then the_list feature_columns
    else columns data.
Proof. by destruct feature_columns as [[|c cs]|]. Qed.

(** The local [feature_names] when the branch is left. *)
Lemma select_features_names data feature_columns arr names :
  features data feature_columns = Ok (arr, names) →
  names = if has_tensor_column data then None
          else if all_str (selected_columns data feature_columns)
               then Some (selected_columns data feature_columns)
               else None.
Proof.
  rewrite selected_columns_code. unfold select_features.
  destruct (has_tensor_column data).
  - intros (column & _ & H)%bind_ok. apply bind_ok in H as (arr' & _ & H).
    by injection H as _ <-.
  - destruct (truthy_opt_list feature_columns).
    + intros (selected & _ & H)%bind_ok. by injection H as _ <-.
    + by intros [= _ <-].
Qed.

(** Without the tensor column the branch raises exactly when a requested
    label names no column. *)
Lemma select_features_is_ok data feature_columns :
  has_tensor_column data = false →
  is_ok (features data feature_columns) = true
  ↔ ∀ c, c ∈ selected_columns data feature_columns → c ∈ columns data.
Proof.
  intros Hno. rewrite selected_columns_code.
  unfold select_features. rewrite Hno.
  destruct (truthy_opt_list feature_columns); simpl.
  - rewrite <- getitem_list_is_ok. by destruct (getitem_list _ _).
  - done.
Qed.

(** The keyword dictionary handed to [xgboost.DMatrix]: the caller's, with
    [feature_names] set when the local [feature_names] is a non-empty list. *)
Lemma dmatrix_call_ok data feature_columns dmatrix_kwargs arr kwargs :
  call data feature_columns dmatrix_kwargs = Ok (arr, kwargs) ↔
  ∃ names, features data feature_columns = Ok (arr, names) ∧
    kwargs = if truthy_opt_list names
             then <["feature_names" := KwLabels (the_list names)]>
                    (dict_or_empty dmatrix_kwargs)
             else dict_or_empty dmatrix_kwargs.
Proof.
  unfold dmatrix_call. rewrite bind_ok. split.
  - intros ([arr' names] & Hsel & [= -> <-]). by exists names.
  - intros (names & Hsel & ->). by exists (arr, names).
Qed.

Lemma dmatrix_call_is_ok data feature_columns dmatrix_kwargs :
  is_ok (call data feature_columns dmatrix_kwargs)
  = is_ok (features data feature_columns).
Proof.
  unfold dmatrix_call.
  by destruct (features data feature_columns) as [[? ?]|].
Qed.

(** What [xgboost.DMatrix] finds under [feature_names]. *)
Lemma dmatrix_call_feature_names data feature_columns dmatrix_kwargs arr kwargs :
  call data feature_columns dmatrix_kwargs = Ok (arr, kwargs) →
  kwargs !! "feature_names"
  = if negb (has_tensor_column data)
       && all_str (selected_columns data feature_columns)
       && truthy_list (selected_columns data feature_columns)
    then Some (KwLabels (selected_columns data feature_columns))
    else dmatrix_kwargs ≫= (.!! "feature_names").
Proof.
  intros (names & Hsel & ->)%dmatrix_call_ok.
  apply select_features_names in Hsel as ->.
  destruct (has_tensor_column data); simpl.
  - apply dict_or_empty_lookup.
  - destruct (all_str _); simpl; [|apply dict_or_empty_lookup].
    destruct (truthy_list _); simpl; [|apply dict_or_empty_lookup].
    apply lookup_insert_eq.
Qed.

(** When the array to predict on comes from the tensor column, the
    dictionary handed to [xgboost.DMatrix] is the caller's. *)
Lemma tensor_column_keeps_kwargs data feature_columns dmatrix_kwargs arr kwargs :
  has_tensor_column data = true →
  call data feature_columns dmatrix_kwargs = Ok (arr, kwargs) →
  kwargs = dict_or_empty dmatrix_kwargs.
Proof.
  intros Hin (names & Hsel & ->)%dmatrix_call_ok.
  apply select_features_names in Hsel. rewrite Hin in Hsel. by subst.
Qed.

(** A [feature_names] entry of the caller's own reaches [xgboost.DMatrix]
    on every branch. *)
Lemma caller_feature_names_forwarded data feature_columns dmatrix_kwargs arr kwargs :
  is_Some (dmatrix_kwargs ≫= (.!! "feature_names")) →
  call data feature_columns dmatrix_kwargs = Ok (arr, kwargs) →
  is_Some (kwargs !! "feature_names").
Proof.
  intros Hcaller ->%dmatrix_call_feature_names. by destruct (_ && _).
Qed.

(** Without the tensor column and without a list of feature columns, the
    whole frame is converted. *)
Lemma no_feature_columns_uses_frame data dmatrix_kwargs :
  has_tensor_column data = false →
  ∃ kwargs,
    call data None dmatrix_kwargs = Ok (frame_to_numpy astype_common data, kwargs).
Proof.
  intros Hno. unfold dmatrix_call, select_features. rewrite Hno. simpl.
  by eexists.
Qed.

(** [_predict_pandas] returns exactly when each of the calls it chains
    does, and then returns the prediction under the new labels. *)
Lemma predict_pandas_ok self data feature_columns dmatrix_kwargs predict_kwargs df :
  predict_pandas self data feature_columns dmatrix_kwargs predict_kwargs = Ok df ↔
  ∃ arr kwargs matrix prediction frame,
    call data feature_columns dmatrix_kwargs = Ok (arr, kwargs) ∧
    xgboost_DMatrix arr kwargs = Ok matrix ∧
    Booster_predict (model self) matrix predict_kwargs = Ok prediction ∧
    pd_DataFrame prediction = Ok frame ∧
    df = {| columns := prediction_labels (length (columns frame));
            values := values frame |}.
Proof.
  unfold _predict_pandas. rewrite bind_ok. split.
  - intros ([arr kwargs] & Hcall & H).
    apply bind_ok in H as (matrix & Hm & H).
    apply bind_ok in H as (prediction & Hp & H).
    apply bind_ok in H as (frame & Hf & H).
    rewrite set_prediction_labels in H. injection H as <-.
    by exists arr, kwargs, matrix, prediction, frame.
  - intros (arr & kwargs & matrix & prediction & frame
            & Hcall & Hm & Hp & Hf & ->).
    exists (arr, kwargs). split; [done|].
    apply bind_ok. exists matrix. split; [done|].
    apply bind_ok. exists prediction. split; [done|].
    apply bind_ok. exists frame. split; [done|].
    apply set_prediction_labels.
Qed.

(** Once the model has produced a prediction of one or two dimensions,
    [_predict_pandas] returns a frame. *)
Lemma predict_pandas_returns self data feature_columns dmatrix_kwargs
    predict_kwargs arr kwargs matrix prediction :
  call data feature_columns dmatrix_kwargs = Ok (arr, kwargs) →
  xgboost_DMatrix arr kwargs = Ok matrix →
  Booster_predict (model self) matrix predict_kwargs = Ok prediction →
  is_Some (output_columns prediction) →
  is_ok (predict_pandas self data feature_columns dmatrix_kwargs predict_kwargs)
  = true.
Proof.
  intros Hcall Hm Hp Hn.
  apply pd_DataFrame_is_ok, is_ok_true in Hn as [frame Hf].
  apply is_ok_true. eexists. apply predict_pandas_ok.
  by exists arr, kwargs, matrix, prediction, frame.
Qed.


(** C8 (amended). When the caller's [dmatrix_kwargs] has no [feature_names]
    entry of its own, [xgboost.DMatrix] is reached and receives the
    [feature_names] keyword if and only if the tensor column is absent from
    the data and the selected feature columns (the given non-empty
    [feature_columns], or all columns of the data when none are given) are
    not empty, are all strings, and each of them labels a column of the
    data. *)
Theorem feature_names_passed_iff data feature_columns dmatrix_kwargs :
  dmatrix_kwargs ≫= (.!! "feature_names") = None →
  passes data feature_columns dmatrix_kwargs = true ↔
    has_tensor_column data = false ∧
    selected_columns data feature_columns ≠ [] ∧
    all_str (selected_columns data feature_columns) = true ∧
    (∀ c, c ∈ selected_columns data feature_columns → c ∈ columns data).
Proof.
  intros Hcaller. unfold passes_feature_names.
  destruct (call data feature_columns dmatrix_kwargs) as [[arr kwargs]|e] eqn:Hcall.
  - assert (is_ok (features data feature_columns) = true) as Hok
      by (by rewrite <- (dmatrix_call_is_ok _ _ dmatrix_kwargs), Hcall).
    rewrite (dmatrix_call_feature_names _ _ _ _ _ Hcall), Hcaller.
    destruct (has_tensor_column data) eqn:Hin; simpl.
    { split; [done | by intros [? _]]. }
    pose proof (proj1 (select_features_is_ok _ _ Hin) Hok) as Hcols.
    rewrite <- truthy_list_true.
    destruct (all_str (selected_columns data feature_columns)),
      (truthy_list (selected_columns data feature_columns)); simpl;
      split; try done; try (by intros (_ & ? & ? & _)).
  - split; [done|]. intros (Hin & _ & _ & Hcols).
    pose proof (proj2 (select_features_is_ok _ _ Hin) Hcols) as Hok.
    by rewrite <- (dmatrix_call_is_ok _ _ dmatrix_kwargs), Hcall in Hok.
Qed.

(** C9 (amended). With [feature_columns=[]] the predictor returns what it
    returns with [feature_columns=None], having called [xgboost.DMatrix] with
    the same arguments: the empty list is falsy at both tests of the branch.
    When the tensor column is absent, all columns of the data are then used
    as features: the array passed is [data.to_numpy()] of the whole frame.
    When the tensor column is present, the tensor column alone is used, whole,
    and the dictionary passed is the caller's. *)
Theorem empty_feature_columns_as_none self data dmatrix_kwargs predict_kwargs :
  predict_pandas self data (Some []) dmatrix_kwargs predict_kwargs
  = predict_pandas self data None dmatrix_kwargs predict_kwargs
  ∧ call data (Some []) dmatrix_kwargs = call data None dmatrix_kwargs
  ∧ (has_tensor_column data = false →
     ∃ kwargs,
       call data (Some []) dmatrix_kwargs
       = Ok (frame_to_numpy astype_common data, kwargs))
  ∧ (has_tensor_column data = true →
     ∃ column,
       getitem data (LStr TENSOR_COLUMN_NAME) = Ok column ∧
       call data (Some []) dmatrix_kwargs
       = Ok (to_numpy series_to_numpy astype_common column,
             dict_or_empty dmatrix_kwargs)).
Proof.
  assert (features data (Some []) = features data None) as Hsel.
  { unfold select_features. by rewrite truthy_empty_list_is_none. }
  assert (call data (Some []) dmatrix_kwargs = call data None dmatrix_kwargs)
    as Hcall by (unfold dmatrix_call; by rewrite Hsel).
  split; [unfold _predict_pandas; by rewrite Hcall|]. split; [done|]. split.
  - intros Hno. rewrite Hcall. by apply no_feature_columns_uses_frame.
  - intros Hin. pose proof (proj2 (getitem_is_ok data _) Hin) as Hok.
    apply is_ok_true in Hok as [column Hcol]. exists column. split; [done|].
    unfold dmatrix_call, select_features. rewrite Hin, Hcol. done.
Qed.
End Properties.

(** ** The predictor at work *)

(** A booster with a single score per row. *)
Example predict_one_score :
  Fixture.predict_pandas (Fixture.predictor None) Fixture.abc
    (Some [LStr "A"; LStr "B"]) None ∅
  = Ok {| columns := [LStr "predictions"];
          values := {| shape := [2; 1]; items := [0; 1]%Z |} |}.
Proof. vm_compute. reflexivity. Qed.

(** A booster with twelve scores per row: the labels count in decimal. *)
Example predict_twelve_scores :
  columns <$> Fixture.predict_pandas (Fixture.predictor (Some 12)) Fixture.abc
                None None ∅
  = Ok (LStr <$> ["predictions_0"; "predictions_1"; "predictions_2";
                  "predictions_3"; "predictions_4"; "predictions_5";
                  "predictions_6"; "predictions_7"; "predictions_8";
                  "predictions_9"; "predictions_10"; "predictions_11"]).
Proof. vm_compute. reflexivity. Qed.

(** A booster that emits no score at all: the frame has no column, and the
    list of labels is empty. *)
Example predict_no_score :
  columns <$> Fixture.predict_pandas (Fixture.predictor (Some 0)) Fixture.abc
                None None ∅
  = Ok [].
Proof. vm_compute. reflexivity. Qed.

(** The docstring's frame with [feature_columns=["A", "B"]]: the first two
    columns are converted and their labels become the feature names. *)
Example call_with_named_columns :
  Fixture.call Fixture.abc (Some [LStr "A"; LStr "B"]) None
  = Ok ({| shape := [2; 2]; items := [1; 2; 3; 4]%Z |},
        {["feature_names" := KwLabels [LStr "A"; LStr "B"]]}).
Proof. vm_compute. reflexivity. Qed.

(** Integer labels select by label, not by position: a frame whose columns
    are named by strings has no column [0]. *)
Example call_with_missing_column :
  Fixture.call Fixture.abc (Some [LInt 0]) None = Raise KeyError.
Proof. vm_compute. reflexivity. Qed.

(** With the tensor column, [feature_columns] indexes the second axis of
    the array; a vector of scalars has none. *)
Example call_with_tensor_column :
  Fixture.call Fixture.tensor_only None None
  = Ok ({| shape := [2]; items := [5; 6]%Z |}, ∅)
  ∧ Fixture.call Fixture.tensor_only (Some [LInt 0]) None = Raise IndexError.
Proof. split; vm_compute; reflexivity. Qed.

(** A caller who puts [feature_names] into [dmatrix_kwargs] has it
    forwarded, tensor column or not. *)
Example call_with_own_feature_names :
  Fixture.passes Fixture.tensor_only None
    (Some {["feature_names" := KwLabels [LStr "f0"]]}) = true.
Proof. vm_compute. reflexivity. Qed.


(** The docstring's frame with [feature_columns=["A", "B"]] and no
    [dmatrix_kwargs]: the hypothesis of [feature_names_passed_iff] holds, and
    so do both sides of its equivalence. *)
Lemma feature_names_passed_iff_witness :
  (@None (gmap string (kwarg unit))) ≫= (.!! "feature_names") = None
  ∧ (Fixture.passes Fixture.abc (Some [LStr "A"; LStr "B"]) None = true ↔
       frame_contains (LStr Fixture.TENSOR_COLUMN_NAME) Fixture.abc = false ∧
       selected_columns Fixture.abc (Some [LStr "A"; LStr "B"]) ≠ [] ∧
       all_str (selected_columns Fixture.abc (Some [LStr "A"; LStr "B"])) = true ∧
       (∀ c, c ∈ selected_columns Fixture.abc (Some [LStr "A"; LStr "B"]) →
             c ∈ columns Fixture.abc))
  ∧ Fixture.passes Fixture.abc (Some [LStr "A"; LStr "B"]) None = true.
Proof.
  split; [reflexivity|]. split; [|vm_compute; reflexivity].
  apply (feature_names_passed_iff (Any := unit) Fixture.TENSOR_COLUMN_NAME
           Fixture.series_to_numpy
             Fixture.astype_common Fixture.abc (Some [LStr "A"; LStr "B"]) None).
  reflexivity.
Defined.

(** A frame with rows and no column, no [feature_columns], no
    [dmatrix_kwargs]: the tensor column is absent and every selected column
    (there is none) is a string, yet [xgboost.DMatrix] is called without
    [feature_names], since the empty list of names is falsy. *)
Lemma feature_names_not_passed_without_columns :
  ¬ (Fixture.passes Fixture.no_columns None None = true ↔
       frame_contains (LStr Fixture.TENSOR_COLUMN_NAME) Fixture.no_columns = false ∧
       all_str (selected_columns Fixture.no_columns None) = true).
Proof.
  intros [_ Hpass].
  assert (Fixture.passes Fixture.no_columns None None = false) as Hno
    by (vm_compute; reflexivity).
  rewrite Hno in Hpass. by discriminate Hpass.
Qed.

(** On that frame the whole (empty) array is handed over, with the
    caller's empty dictionary. *)
Example call_without_columns :
  Fixture.call Fixture.no_columns None None
  = Ok ({| shape := [2; 0]; items := [] |}, ∅).
Proof. vm_compute. reflexivity. Qed.

(** A requested label that names no column: the selection raises
    [KeyError] and [xgboost.DMatrix] is not reached. *)
Example feature_names_not_passed_on_key_error :
  all_str (selected_columns Fixture.abc (Some [LStr "Z"])) = true
  ∧ Fixture.call Fixture.abc (Some [LStr "Z"]) None = Raise KeyError
  ∧ Fixture.passes Fixture.abc (Some [LStr "Z"]) None = false.
Proof. repeat split; vm_compute; reflexivity. Qed.

(** ** Exceptions on the way to the matrix *)

Lemma not_ok_raise {A} (r : result A) : is_ok r = false ↔ ∃ e, r = Raise e.
Proof.
  destruct r as [a|e]; simpl; split; try done.
  - by intros [e ?].
  - by exists e.
Qed.

Lemma mapM_raise {A B} (f : A → result B) (l : list A) e :
  mapM f l = Raise e → ∃ a, a ∈ l ∧ f a = Raise e.
Proof.
  induction l as [|a l IH]; simpl; [done|].
  destruct (f a) as [b|e'] eqn:Hfa; simpl.
  - destruct (mapM f l) as [bs|e'']; simpl; [done|].
    intros [= ->]. destruct IH as (a' & Hin & Hfa'); [done|].
    exists a'. split; [by apply list_elem_of_further | done].
  - intros [= ->]. exists a. split; [apply list_elem_of_here | done].
Qed.

Lemma locate_raise cols key e :
  locate cols key = Raise e → e = KeyError ∧ key ∉ cols.
Proof.
  intros H. assert (is_ok (locate cols key) = false) as Hno by (by rewrite H).
  split.
  - unfold locate in H. by destruct (positions key cols); simplify_eq.
  - intros Hin%locate_is_ok. congruence.
Qed.

Lemma getitem_list_raise {V} (df : DataFrame V) keys e :
  getitem_list df keys = Raise e ↔
  e = KeyError ∧ ∃ c, c ∈ keys ∧ c ∉ columns df.
Proof.
  split.
  - unfold getitem_list.
    destruct (mapM (locate (columns df)) keys) as [jss|e'] eqn:HM; [done|].
    intros [= ->]. apply mapM_raise in HM as (c & Hc & [-> Hno]%locate_raise).
    split; [done|]. by exists c.
  - intros [-> (c & Hc & Hno)].
    destruct (getitem_list df keys) as [sub|e'] eqn:Hget.
    + assert (is_ok (getitem_list df keys) = true) as Hok by (by rewrite Hget).
      rewrite getitem_list_is_ok in Hok. by destruct Hno; apply Hok.
    + unfold getitem_list in Hget.
      destruct (mapM (locate (columns df)) keys) as [jss|e''] eqn:HM; [done|].
      injection Hget as <-.
      by apply mapM_raise in HM as (c' & _ & [-> _]%locate_raise).
Qed.

Lemma normalize_index_is_ok n i :
  is_ok (normalize_index n i) = true ↔ (- Z.of_nat n ≤ i < Z.of_nat n)%Z.
Proof.
  unfold normalize_index. repeat case_bool_decide; simpl; split; try done; lia.
Qed.

Lemma normalize_index_lt n i j : normalize_index n i = Ok j → j < n.
Proof.
  unfold normalize_index. repeat case_bool_decide; intros [= <-]; lia.
Qed.

Lemma axis_index_is_ok n c :
  is_ok (axis_index n c) = true ↔
  ∃ i, c = LInt i ∧ (- Z.of_nat n ≤ i < Z.of_nat n)%Z.
Proof.
  destruct c as [s|i]; simpl.
  - split; [done | by intros (i & ? & _)].
  - rewrite normalize_index_is_ok. split; [by exists i | by intros (? & [= <-] & ?)].
Qed.

Lemma axis_index_raise n c e : axis_index n c = Raise e → e = IndexError.
Proof.
  destruct c as [s|i]; simpl; [by intros [= <-]|].
  unfold normalize_index. repeat case_bool_decide; by intros [= <-].
Qed.

Lemma take_columns_raise {V} (a : ndarray V) idx e :
  take_columns a idx = Raise e → e = IndexError.
Proof.
  unfold take_columns. destruct (shape a) as [|m [|n rest]]; try by intros [= <-].
  destruct (mapM (axis_index n) idx) as [js|e'] eqn:HM; [done|].
  intros [= ->]. by apply mapM_raise in HM as (c & _ & ->%axis_index_raise).
Qed.

Lemma length_mapM_ok {A B} (f : A → result B) (l : list A) bs :
  mapM f l = Ok bs → length bs = length l.
Proof.
  revert bs. induction l as [|a l IH]; intros bs; simpl; [by intros [= <-]|].
  destruct (f a); simpl; [|done].
  destruct (mapM f l) as [bs'|]; simpl; [|done].
  intros [= <-]. simpl. by rewrite (IH bs').
Qed.

(** [a[:, idx]] on an array of two or more dimensions: raised exactly when
    an index is not an integer within the second axis; otherwise the second
    axis of the result has one entry per index. *)
Lemma take_columns_is_ok {V} (a : ndarray V) idx m n rest :
  shape a = m :: n :: rest →
  is_ok (take_columns a idx) = true ↔
  ∀ c, c ∈ idx → ∃ i, c = LInt i ∧ (- Z.of_nat n ≤ i < Z.of_nat n)%Z.
Proof.
  intros Hs. unfold take_columns. rewrite Hs.
  rewrite <- Forall_forall, <- (Forall_iff _ idx _ (axis_index_is_ok n)).
  rewrite <- mapM_is_ok. by destruct (mapM _ idx).
Qed.

Lemma take_columns_shape {V} (a : ndarray V) idx m n rest b :
  shape a = m :: n :: rest →
  take_columns a idx = Ok b → shape b = m :: length idx :: rest.
Proof.
  intros Hs. unfold take_columns. rewrite Hs.
  destruct (mapM (axis_index n) idx) as [js|] eqn:HM; [|done].
  intros [= <-]. simpl. by rewrite (length_mapM_ok _ _ _ HM).
Qed.

(** ** How a call can end *)

Section Behaviour.
Context {V Any DMatrix Booster Preprocessor : Type}.
Variable TENSOR_COLUMN_NAME : string.
Variable series_to_numpy : list V → ndarray V.
Variable astype_common : list V → V → V.
Variable xgboost_DMatrix : ndarray V → gmap string (kwarg Any) → result DMatrix.
Variable Booster_predict : Booster → DMatrix → gmap string Any → result (ndarray V).

Local Abbreviation features :=
  (select_features TENSOR_COLUMN_NAME series_to_numpy astype_common).
Local Abbreviation call :=
  (dmatrix_call (Any := Any) TENSOR_COLUMN_NAME series_to_numpy astype_common).
Local Abbreviation predict_pandas :=
  (_predict_pandas (Preprocessor := Preprocessor) TENSOR_COLUMN_NAME
     series_to_numpy astype_common xgboost_DMatrix Booster_predict).
Local Abbreviation predict_pandas_store :=
  (_predict_pandas_store (Preprocessor := Preprocessor) TENSOR_COLUMN_NAME
     series_to_numpy astype_common xgboost_DMatrix Booster_predict).
Local Abbreviation has_tensor_column data :=
  (frame_contains (LStr TENSOR_COLUMN_NAME) data).
Local Abbreviation tensor_column data :=
  (getitem data (LStr TENSOR_COLUMN_NAME)).
Local Abbreviation as_array column := (to_numpy series_to_numpy astype_common column).

Lemma call_raise_features data feature_columns dmatrix_kwargs e :
  call data feature_columns dmatrix_kwargs = Raise e ↔
  features data feature_columns = Raise e.
Proof.
  unfold dmatrix_call.
  destruct (features data feature_columns) as [[? ?]|]; simpl; split; intros H;
    first [discriminate H | by injection H as ->].
Qed.

Lemma predict_pandas_raise_call self data feature_columns dmatrix_kwargs
    predict_kwargs e :
  call data feature_columns dmatrix_kwargs = Raise e →
  predict_pandas self data feature_columns dmatrix_kwargs predict_kwargs = Raise e.
Proof. intros H. unfold _predict_pandas. by rewrite H. Qed.

(** The branch taken when the tensor column is absent. *)
Lemma features_without_tensor data feature_columns :
  has_tensor_column data = false →
  features data feature_columns
  = match feature_columns with
    | Some (c :: cs) =>
        selected ← getitem_list data (c :: cs);
        Ok (frame_to_numpy astype_common selected,
            if all_str (c :: cs) then Some (c :: cs) else None)
    | _ => Ok (frame_to_numpy astype_common data,
               if all_str (columns data) then Some (columns data) else None)
    end.
Proof.
  intros Hno. unfold select_features. rewrite Hno.
  by destruct feature_columns as [[|c cs]|].
Qed.

(** The branch taken when the tensor column is present. *)
Lemma features_with_tensor data feature_columns :
  has_tensor_column data = true →
  ∃ column, tensor_column data = Ok column ∧
    features data feature_columns
    = match feature_columns with
      | Some (c :: cs) =>
          arr ← take_columns (as_array column) (c :: cs); Ok (arr, None)
      | _ => Ok (as_array column, None)
      end.
Proof.
  intros Hin. pose proof (proj2 (getitem_is_ok data _) Hin) as Hok.
  apply is_ok_true in Hok as [column Hcol]. exists column. split; [done|].
  unfold select_features. rewrite Hin, Hcol.
  by destruct feature_columns as [[|c cs]|].
Qed.

(** X1. Without the tensor column, what is raised before [xgboost.DMatrix]
    is called is [KeyError], and it is raised exactly when one of the
    selected feature columns names no column of the data. *)
Theorem selection_raises_key_error_iff data feature_columns dmatrix_kwargs e :
  has_tensor_column data = false →
  call data feature_columns dmatrix_kwargs = Raise e ↔
    e = KeyError ∧
    ∃ c, c ∈ selected_columns data feature_columns ∧ c ∉ columns data.
Proof.
  intros Hno. rewrite call_raise_features, (features_without_tensor _ _ Hno).
  destruct feature_columns as [[|c cs]|]; simpl.
  - split; [done | by intros (_ & c & Hc & Hn)].
  - rewrite <- getitem_list_raise.
    destruct (getitem_list data (c :: cs)); simpl; split; intros H;
      first [discriminate H | by injection H as ->].
  - split; [done | by intros (_ & c & Hc & Hn)].
Qed.

(** X2. A feature column that names no column of the data makes
    [_predict_pandas] raise [KeyError], whatever xgboost and the model would
    have done. *)
Theorem missing_feature_column_raises self data feature_columns dmatrix_kwargs
    predict_kwargs c :
  has_tensor_column data = false →
  c ∈ selected_columns data feature_columns →
  c ∉ columns data →
  predict_pandas self data feature_columns dmatrix_kwargs predict_kwargs
  = Raise KeyError.
Proof.
  intros Hno Hc Hn. apply predict_pandas_raise_call, call_raise_features.
  rewrite (features_without_tensor _ _ Hno).
  destruct feature_columns as [[|c' cs]|]; simpl in *; try done.
  assert (getitem_list data (c' :: cs) = Raise KeyError) as ->; [|done].
  apply getitem_list_raise. split; [done|]. by exists c.
Qed.

(** X3. With the tensor column present, nothing is raised before
    [xgboost.DMatrix] when no feature column is given, and what is raised
    otherwise is [IndexError]. *)
Theorem tensor_selection_raises_only_index_error data feature_columns
    dmatrix_kwargs e :
  has_tensor_column data = true →
  call data feature_columns dmatrix_kwargs = Raise e →
  e = IndexError ∧ truthy_opt_list feature_columns = true.
Proof.
  intros Hin. rewrite call_raise_features.
  destruct (features_with_tensor _ feature_columns Hin) as (column & _ & ->).
  destruct feature_columns as [[|c cs]|]; try done.
  destruct (take_columns _ _) as [arr|e'] eqn:Htake; simpl; [done|].
  intros [= ->]. split; [|done]. by apply take_columns_raise in Htake.
Qed.

(** X4. With the tensor column present the feature columns index the second
    axis of the array: a string among them makes [_predict_pandas] raise
    [IndexError]. *)
Theorem tensor_column_string_feature_raises self data cs s dmatrix_kwargs
    predict_kwargs :
  has_tensor_column data = true →
  LStr s ∈ cs →
  predict_pandas self data (Some cs) dmatrix_kwargs predict_kwargs
  = Raise IndexError.
Proof.
  intros Hin Hs. apply predict_pandas_raise_call, call_raise_features.
  destruct (features_with_tensor _ (Some cs) Hin) as (column & _ & ->).
  destruct cs as [|c cs]; [by apply elem_of_nil in Hs|].
  destruct (take_columns (as_array column) (c :: cs)) as [arr|e] eqn:Htake; simpl.
  - exfalso. unfold take_columns in Htake.
    destruct (shape (as_array column)) as [|m [|n rest]]; try done.
    destruct (mapM (axis_index n) (c :: cs)) as [js|] eqn:HM; [|done].
    assert (is_ok (mapM (axis_index n) (c :: cs)) = true) as Hok by (by rewrite HM).
    rewrite mapM_is_ok, Forall_forall in Hok. by specialize (Hok _ Hs).
  - by apply take_columns_raise in Htake as ->.
Qed.

(** X5. With the tensor column stacked into an array of shape [m, n, ...]
    and a non-empty list of feature columns that are all integers [i] with
    [-n <= i < n], negative ones counting from the end, [xgboost.DMatrix] is
    reached: the array it receives has shape [m, k, ...] for [k] feature
    columns, and the dictionary it receives is the caller's. *)
Theorem tensor_column_integer_features data c cs dmatrix_kwargs column m n rest :
  tensor_column data = Ok column →
  shape (as_array column) = m :: n :: rest →
  (∀ c', c' ∈ c :: cs → ∃ i, c' = LInt i ∧ (- Z.of_nat n ≤ i < Z.of_nat n)%Z) →
  ∃ arr,
    call data (Some (c :: cs)) dmatrix_kwargs
    = Ok (arr, dict_or_empty dmatrix_kwargs) ∧
    shape arr = m :: length (c :: cs) :: rest.
Proof.
  intros Hcol Hshape Hrange.
  assert (has_tensor_column data = true) as Hin.
  { apply getitem_is_ok. by rewrite Hcol. }
  destruct (features_with_tensor _ (Some (c :: cs)) Hin) as (column' & Hcol' & Hf).
  rewrite Hcol in Hcol'. injection Hcol' as <-.
  apply (take_columns_is_ok _ _ _ _ _ Hshape), is_ok_true in Hrange as [arr Htake].
  exists arr. split.
  - unfold dmatrix_call. rewrite Hf, Htake. done.
  - by apply (take_columns_shape _ _ _ _ _ _ Hshape Htake).
Qed.

(** *** The keyword dictionary *)

(** X6. When the predictor names the features itself, its names replace a
    [feature_names] entry the caller may have put into [dmatrix_kwargs]. *)
Theorem column_names_replace_caller_names data feature_columns dmatrix_kwargs
    arr kwargs :
  has_tensor_column data = false →
  selected_columns data feature_columns ≠ [] →
  all_str (selected_columns data feature_columns) = true →
  call data feature_columns dmatrix_kwargs = Ok (arr, kwargs) →
  kwargs !! "feature_names"
  = Some (KwLabels (selected_columns data feature_columns)).
Proof.
  intros Hno Hne Hstr Hcall.
  rewrite (dmatrix_call_feature_names _ _ _ _ _ _ _ _ Hcall), Hno, Hstr.
  by rewrite (proj2 (truthy_list_true _) Hne).
Qed.

(** X7. Every other keyword argument of the caller reaches [xgboost.DMatrix] as
    it was given, and no keyword is invented. *)
Theorem other_kwargs_forwarded data feature_columns dmatrix_kwargs arr kwargs k :
  k ≠ "feature_names" →
  call data feature_columns dmatrix_kwargs = Ok (arr, kwargs) →
  kwargs !! k = dmatrix_kwargs ≫= (.!! k).
Proof.
  intros Hk (names & _ & ->)%dmatrix_call_ok.
  destruct (truthy_opt_list names).
  - rewrite lookup_insert_ne by done. apply dict_or_empty_lookup.
  - apply dict_or_empty_lookup.
Qed.

(** *** Names and columns agree *)

Lemma positions_from_NoDup i key cols :
  NoDup cols → (length (positions_from i key cols) ≤ 1)%nat.
Proof.
  intros Hnd. revert i. induction Hnd as [|c cols Hc Hnd IH]; intros i; simpl.
  - lia.
  - case_bool_decide as Heq; [|apply IH].
    subst. by rewrite (proj2 (positions_from_nil (S i) key cols) Hc).
Qed.

Lemma locate_NoDup cols key js :
  NoDup cols → locate cols key = Ok js → length js = 1.
Proof.
  intros Hnd. unfold locate, positions.
  pose proof (positions_from_NoDup 0 key cols Hnd) as Hle.
  destruct (positions_from 0 key cols) as [|j js'] eqn:E; [done|].
  intros [= <-]. simpl in *. lia.
Qed.

Lemma mapM_locate_NoDup cols keys jss :
  NoDup cols → mapM (locate cols) keys = Ok jss →
  length (concat jss) = length keys.
Proof.
  intros Hnd. revert jss. induction keys as [|key keys IH]; intros jss; simpl.
  - by intros [= <-].
  - destruct (locate cols key) as [js|] eqn:Hloc; simpl; [|done].
    destruct (mapM (locate cols) keys) as [jss'|]; simpl; [|done].
    intros [= <-]. simpl. rewrite length_app, (IH jss') by done.
    by rewrite (locate_NoDup _ _ _ Hnd Hloc).
Qed.

(** X8. On a frame of [m] rows whose column labels are distinct, the names the
    predictor passes as [feature_names] are as many as the columns of the
    array it passes: the array has shape [m, k] for [k] names. *)
Theorem feature_names_match_array data feature_columns dmatrix_kwargs arr
    kwargs m names :
  shape (values data) = [m; length (columns data)] →
  NoDup (columns data) →
  dmatrix_kwargs ≫= (.!! "feature_names") = None →
  call data feature_columns dmatrix_kwargs = Ok (arr, kwargs) →
  kwargs !! "feature_names" = Some (KwLabels names) →
  shape arr = [m; length names].
Proof.
  intros Hshape Hnd Hcaller Hcall.
  rewrite (dmatrix_call_feature_names _ _ _ _ _ _ _ _ Hcall), Hcaller.
  destruct (has_tensor_column data) eqn:Hno; simpl; [done|].
  destruct (all_str _) eqn:Hstr; simpl; [|done].
  destruct (truthy_list _); simpl; [|done]. intros [= <-].
  apply dmatrix_call_ok in Hcall as (names & Hsel & _).
  rewrite (features_without_tensor _ _ Hno) in Hsel.
  destruct feature_columns as [[|c cs]|]; simpl in *.
  - by injection Hsel as <- _.
  - unfold getitem_list in Hsel.
    destruct (mapM (locate (columns data)) (c :: cs)) as [jss|] eqn:HM; [|done].
    injection Hsel as <- _. simpl.
    rewrite (mapM_locate_NoDup _ _ _ Hnd HM). unfold frame_rows.
    by rewrite Hshape.
  - by injection Hsel as <- _.
Qed.

(** *** The frame returned *)

Lemma all_str_prediction_labels n : all_str (prediction_labels n) = true.
Proof.
  apply all_str_spec. intros c. unfold prediction_labels.
  case_bool_decide.
  - intros ->%list_elem_of_singleton. by eexists.
  - intros (i & -> & _)%list_elem_of_fmap. by eexists.
Qed.

(** X10. The scores come back as the model gave them: the returned frame holds
    the elements of the prediction in the same order, as [m] rows of [n]
    scores, a vector of [m] scores counting as one score per row. *)
Theorem prediction_values_returned self data feature_columns dmatrix_kwargs
    predict_kwargs df :
  predict_pandas self data feature_columns dmatrix_kwargs predict_kwargs = Ok df →
  ∃ matrix prediction m n,
    Booster_predict (model self) matrix predict_kwargs = Ok prediction ∧
    (shape prediction = [m] ∧ n = 1 ∨ shape prediction = [m; n]) ∧
    values df = {| shape := [m; n]; items := items prediction |}.
Proof.
  intros (arr & kwargs & matrix & prediction & frame
          & _ & _ & Hp & Hf & ->)%predict_pandas_ok.
  unfold pd_DataFrame in Hf. destruct prediction as [sh xs]; simpl in *.
  destruct sh as [|m [|n [|? ?]]]; try done; injection Hf as <-.
  - exists matrix, {| shape := [m]; items := xs |}, m, 1. eauto.
  - exists matrix, {| shape := [m; n]; items := xs |}, m, n. eauto.
Qed.

(** X11. The labels of the returned frame are strings and no two are equal. *)
Theorem returned_labels_distinct_strings self data feature_columns
    dmatrix_kwargs predict_kwargs df :
  predict_pandas self data feature_columns dmatrix_kwargs predict_kwargs = Ok df →
  NoDup (columns df) ∧ all_str (columns df) = true.
Proof.
  intros (arr & kwargs & matrix & prediction & frame
          & _ & _ & _ & _ & ->)%predict_pandas_ok.
  simpl. split; [apply prediction_labels_NoDup | apply all_str_prediction_labels].
Qed.

(** X12. A prediction that is neither a vector nor a matrix (the model can be
    asked for arrays of three and more dimensions) is refused when the frame
    is built: [_predict_pandas] raises [ValueError]. *)
Theorem prediction_of_other_rank_raises self data feature_columns dmatrix_kwargs
    predict_kwargs arr kwargs matrix prediction :
  call data feature_columns dmatrix_kwargs = Ok (arr, kwargs) →
  xgboost_DMatrix arr kwargs = Ok matrix →
  Booster_predict (model self) matrix predict_kwargs = Ok prediction →
  length (shape prediction) ≠ 1 →
  length (shape prediction) ≠ 2 →
  predict_pandas self data feature_columns dmatrix_kwargs predict_kwargs
  = Raise ValueError.
Proof.
  intros Hcall Hm Hp H1 H2. unfold _predict_pandas. rewrite Hcall. simpl.
  rewrite Hm. simpl. rewrite Hp. simpl. unfold pd_DataFrame.
  by destruct (shape prediction) as [|m [|n [|? ?]]].
Qed.

(** X13. An exception leaves [_predict_pandas] from one of four places: the
    selection of the features, [xgboost.DMatrix], the model, or the
    construction of the frame from a prediction of the wrong rank. The
    assignment to [df.columns] never raises. *)
Theorem predict_pandas_raise_origin self data feature_columns dmatrix_kwargs
    predict_kwargs e :
  predict_pandas self data feature_columns dmatrix_kwargs predict_kwargs = Raise e →
  call data feature_columns dmatrix_kwargs = Raise e ∨
  ∃ arr kwargs, call data feature_columns dmatrix_kwargs = Ok (arr, kwargs) ∧
    (xgboost_DMatrix arr kwargs = Raise e ∨
     ∃ matrix, xgboost_DMatrix arr kwargs = Ok matrix ∧
       (Booster_predict (model self) matrix predict_kwargs = Raise e ∨
        ∃ prediction,
          Booster_predict (model self) matrix predict_kwargs = Ok prediction ∧
          output_columns prediction = None ∧ e = ValueError)).
Proof.
  unfold _predict_pandas.
  destruct (call data feature_columns dmatrix_kwargs) as [[arr kwargs]|e1];
    simpl; [|intros [= ->]; by left].
  intros H. right. exists arr, kwargs. split; [done|].
  destruct (xgboost_DMatrix arr kwargs) as [matrix|e2]; simpl in H;
    [|injection H as ->; by left].
  right. exists matrix. split; [done|].
  destruct (Booster_predict (model self) matrix predict_kwargs)
    as [prediction|e3]; simpl in H; [|injection H as ->; by left].
  right. exists prediction. split; [done|].
  destruct (pd_DataFrame prediction) as [frame|e4] eqn:Hf; simpl in H.
  - by rewrite set_prediction_labels in H.
  - injection H as ->. unfold pd_DataFrame, output_columns in *.
    destruct (shape prediction) as [|m [|n [|? ?]]]; try done;
      by injection Hf as <-.
Qed.

(** *** The caller's dictionary after the call *)

Lemma or_new_dict_caller (m : gmap string (kwarg Any)) :
  m ≠ ∅ → or_new_dict (Some m) = CallerDict.
Proof.
  intros Hm. unfold or_new_dict. case_bool_decide as Hsz; [|done].
  by apply map_size_empty_iff in Hsz.
Qed.

Lemma dict_read_initial (dmatrix_kwargs : option (gmap string (kwarg Any))) :
  dict_read {| caller_dict := dmatrix_kwargs; new_dict := ∅ |}
    (or_new_dict dmatrix_kwargs)
  = dict_or_empty dmatrix_kwargs.
Proof.
  destruct dmatrix_kwargs as [m|]; simpl; [|done]. by case_bool_decide.
Qed.

Lemma dict_read_setitem (st : dict_store Any) r k v :
  (r = CallerDict → is_Some (caller_dict st)) →
  dict_read (dict_setitem st r k v) r = <[k:=v]> (dict_read st r).
Proof.
  destruct r; simpl; [|done]. intros [m ->]; [done|]. done.
Qed.

(** Threading the store changes nothing in what is returned or raised. *)
Lemma predict_pandas_store_result self data feature_columns dmatrix_kwargs
    predict_kwargs :
  (predict_pandas_store self data feature_columns dmatrix_kwargs predict_kwargs).2
  = predict_pandas self data feature_columns dmatrix_kwargs predict_kwargs.
Proof.
  unfold _predict_pandas_store, _predict_pandas, dmatrix_call.
  destruct (features data feature_columns) as [[arr names]|e]; simpl; [|done].
  destruct (truthy_opt_list names); simpl.
  - rewrite dict_read_setitem, dict_read_initial; [done|].
    simpl. destruct dmatrix_kwargs as [m|]; simpl; [by eexists|done].
  - by rewrite dict_read_initial.
Qed.

(** X14. The caller's dictionary is as it was when the call ends, in each of
    these cases: none or an empty one was passed; the data has the tensor
    column; the selection of the features raised. *)
Theorem caller_dict_untouched self data feature_columns dmatrix_kwargs
    predict_kwargs :
  (∀ m, dmatrix_kwargs = Some m → m = ∅)
  ∨ has_tensor_column data = true
  ∨ is_ok (call data feature_columns dmatrix_kwargs) = false →
  caller_dict
    (predict_pandas_store self data feature_columns dmatrix_kwargs predict_kwargs).1
  = dmatrix_kwargs.
Proof.
  intros Hcase. unfold _predict_pandas_store.
  destruct (features data feature_columns) as [[arr names]|e] eqn:Hsel; [|done].
  simpl. destruct (truthy_opt_list names) eqn:Hnames; [|done].
  destruct Hcase as [Hempty|[Hin|Hraise]].
  - destruct dmatrix_kwargs as [m|]; simpl; [|done].
    rewrite (Hempty m eq_refl). done.
  - apply select_features_names in Hsel. rewrite Hin in Hsel. by subst.
  - by rewrite dmatrix_call_is_ok, Hsel in Hraise.
Qed.

(** The caller's dictionary when the call ends, read off the branch
    taken. *)
Lemma caller_dict_after self data feature_columns dmatrix_kwargs predict_kwargs :
  caller_dict
    (predict_pandas_store self data feature_columns dmatrix_kwargs predict_kwargs).1
  = match features data feature_columns with
    | Ok (_, names) =>
        if truthy_opt_list names
        then match or_new_dict dmatrix_kwargs with
             | CallerDict =>
                 <["feature_names" := KwLabels (the_list names)]> <$> dmatrix_kwargs
             | NewDict => dmatrix_kwargs
             end
        else dmatrix_kwargs
    | Raise _ => dmatrix_kwargs
    end.
Proof.
  unfold _predict_pandas_store.
  destruct (features data feature_columns) as [[arr names]|e]; [|done].
  simpl. destruct (truthy_opt_list names); [|done].
  by destruct (or_new_dict dmatrix_kwargs).
Qed.

(** The local [feature_names] when the predictor names the features. *)
Lemma features_names_set data feature_columns :
  has_tensor_column data = false →
  all_str (selected_columns data feature_columns) = true →
  (∀ c, c ∈ selected_columns data feature_columns → c ∈ columns data) →
  ∃ arr, features data feature_columns
         = Ok (arr, Some (selected_columns data feature_columns)).
Proof.
  intros Hno Hstr Hcols.
  pose proof (proj2 (select_features_is_ok TENSOR_COLUMN_NAME series_to_numpy
    astype_common
                      _ _ Hno) Hcols) as Hok.
  apply is_ok_true in Hok as [[arr names] Hsel]. exists arr. rewrite Hsel.
  apply select_features_names in Hsel. rewrite Hno, Hstr in Hsel. by subst.
Qed.

(** X15. A dictionary with entries that the caller passes is written to: when
    the predictor names the features itself, the caller's own object holds
    those names under [feature_names] once the call has ended, whether
    xgboost and the model then succeeded or raised. *)
Theorem caller_dict_written self data feature_columns
    (m : gmap string (kwarg Any)) predict_kwargs :
  m ≠ ∅ →
  has_tensor_column data = false →
  selected_columns data feature_columns ≠ [] →
  all_str (selected_columns data feature_columns) = true →
  (∀ c, c ∈ selected_columns data feature_columns → c ∈ columns data) →
  caller_dict
    (predict_pandas_store self data feature_columns (Some m) predict_kwargs).1
  = Some (<["feature_names" := KwLabels (selected_columns data feature_columns)]> m).
Proof.
  intros Hm Hno Hne Hstr Hcols.
  rewrite caller_dict_after, (or_new_dict_caller _ Hm).
  destruct (features_names_set _ _ Hno Hstr Hcols) as [arr ->]. simpl.
  by rewrite (proj2 (truthy_list_true _) Hne).
Qed.

(** X16. Names written into the caller's dictionary by one call are still there
    at the next: passed again with data that has the tensor column, for
    which the predictor sets no names, the dictionary hands the earlier
    call's column labels to [xgboost.DMatrix] as [feature_names]. *)
Theorem written_names_reach_next_call self data feature_columns
    (m : gmap string (kwarg Any)) predict_kwargs data' feature_columns' arr kwargs :
  m ≠ ∅ →
  has_tensor_column data = false →
  selected_columns data feature_columns ≠ [] →
  all_str (selected_columns data feature_columns) = true →
  (∀ c, c ∈ selected_columns data feature_columns → c ∈ columns data) →
  has_tensor_column data' = true →
  call data' feature_columns'
    (caller_dict
       (predict_pandas_store self data feature_columns (Some m) predict_kwargs).1)
  = Ok (arr, kwargs) →
  kwargs !! "feature_names"
  = Some (KwLabels (selected_columns data feature_columns)).
Proof.
  intros Hm Hno Hne Hstr Hcols Hin.
  rewrite caller_dict_after, (or_new_dict_caller _ Hm).
  destruct (features_names_set _ _ Hno Hstr Hcols) as [arr' ->]. simpl.
  rewrite (proj2 (truthy_list_true _) Hne).
  intros Hcall.
  rewrite (tensor_column_keeps_kwargs _ _ _ _ _ _ _ _ Hin Hcall).
  rewrite dict_or_empty_lookup. simpl. apply lookup_insert_eq.
Qed.

(** *** The cells selected *)

Lemma positions_from_lookup i key cols j :
  j ∈ positions_from i key cols → ∃ k, j = i + k ∧ cols !! k = Some key.
Proof.
  revert i. induction cols as [|c cols IH]; intros i; simpl.
  - by intros ?%elem_of_nil.
  - case_bool_decide as Heq.
    + intros [->|Hin]%elem_of_cons.
      * exists 0. split; [lia | by subst].
      * destruct (IH _ Hin) as (k & -> & Hk). exists (S k). split; [lia | done].
    + intros Hin. destruct (IH _ Hin) as (k & -> & Hk).
      exists (S k). split; [lia | done].
Qed.

Lemma locate_NoDup_lookup cols key js :
  NoDup cols → locate cols key = Ok js → ∃ j, js = [j] ∧ cols !! j = Some key.
Proof.
  intros Hnd Hloc. pose proof (locate_NoDup _ _ _ Hnd Hloc) as Hlen.
  destruct js as [|j [|? ?]]; try done. exists j. split; [done|].
  unfold locate, positions in Hloc.
  destruct (positions_from 0 key cols) as [|j' js'] eqn:E; [done|].
  injection Hloc as -> ->.
  destruct (positions_from_lookup 0 key cols j) as (k & -> & Hk); [|done].
  rewrite E. apply list_elem_of_here.
Qed.

Lemma mapM_locate_Forall2 cols keys jss :
  NoDup cols → mapM (locate cols) keys = Ok jss →
  Forall2 (λ key j, cols !! j = Some key) keys (concat jss).
Proof.
  intros Hnd. revert jss. induction keys as [|key keys IH]; intros jss; simpl.
  - intros [= <-]. constructor.
  - destruct (locate cols key) as [js|] eqn:Hloc; simpl; [|done].
    destruct (mapM (locate cols) keys) as [jss'|]; simpl; [|done].
    intros [= <-]. simpl.
    destruct (locate_NoDup_lookup _ _ _ Hnd Hloc) as (j & -> & Hj).
    simpl. constructor; [done | by apply IH].
Qed.

Lemma block_one {A} (xs : list A) k x : xs !! k = Some x → block 1 xs k = [x].
Proof.
  intros Hk. unfold block. rewrite Nat.mul_1_r, (drop_S _ _ _ Hk). done.
Qed.

Lemma bind_as_join {A B} (f : A → list B) (l : list A) :
  l ≫= f = mjoin (f <$> l).
Proof. induction l as [|a l IH]; csimpl; [done | by rewrite IH]. Qed.

(** One row of [a[:, js]] on a matrix: as long as [js], with the cell of
    column [j] where [j] stands in [js]. *)
Lemma gather_row {A} (xs : list A) (base : nat) js :
  (∀ j, j ∈ js → base + j < length xs) →
  length (js ≫= λ j, block 1 xs (base + j)) = length js
  ∧ ∀ i j, js !! i = Some j →
      (js ≫= λ j, block 1 xs (base + j)) !! i = xs !! (base + j).
Proof.
  induction js as [|j0 js IH]; intros Hin; csimpl; [done|].
  destruct (lookup_lt_is_Some_2 xs (base + j0)) as [x Hx].
  { apply Hin, list_elem_of_here. }
  rewrite (block_one _ _ _ Hx). simpl.
  destruct IH as [IHlen IHlook].
  { intros j Hj. by apply Hin, list_elem_of_further. }
  split; [by rewrite IHlen|].
  intros [|i] j; simpl; [by intros [= <-] | apply IHlook].
Qed.

Lemma gather_lookup {A} (xs : list A) m n js r i j :
  length xs = m * n → (∀ j', j' ∈ js → j' < n) →
  r < m → js !! i = Some j →
  gather m n 1 xs js !! (r * length js + i) = xs !! (r * n + j).
Proof.
  intros Hlen Hjs Hr Hij. unfold gather. rewrite bind_as_join.
  assert (∀ r', r' < m → ∀ j', j' ∈ js → r' * n + j' < length xs) as Hrange.
  { intros r' Hr' j' Hj'. specialize (Hjs j' Hj'). rewrite Hlen. nia. }
  destruct (lookup_lt_is_Some_2 xs (r * n + j)) as [x Hx].
  { apply Hrange; [done|]. by eapply list_elem_of_lookup_2. }
  rewrite Hx. apply (join_lookup_Some_same_length' (length js)).
  - apply Forall_fmap, Forall_forall. intros r' Hr'%elem_of_seq. simpl.
    apply gather_row. intros j' Hj'. apply Hrange; [lia | done].
  - by eapply lookup_lt_Some.
  - eexists. split.
    + rewrite list_lookup_fmap, lookup_seq_lt by done. done.
    + simpl. rewrite <- Hx. apply gather_row; [|done].
      intros j' Hj'. by apply Hrange.
Qed.

(** X9. The features are laid out as they were asked for. On a frame of
    [m] rows with distinct column labels, the array passed to
    [xgboost.DMatrix] for a non-empty [feature_columns] is the conversion of
    the selected columns to their common dtype; in row [r] and at the place
    of the [i]-th requested label it has the frame's cell of row [r] in the
    column that carries this label, so converted. *)
Theorem selected_cells_follow_request data c cs dmatrix_kwargs arr kwargs
    m r i j key :
  shape (values data) = [m; length (columns data)] →
  length (items (values data)) = m * length (columns data) →
  NoDup (columns data) →
  has_tensor_column data = false →
  call data (Some (c :: cs)) dmatrix_kwargs = Ok (arr, kwargs) →
  r < m →
  (c :: cs) !! i = Some key →
  columns data !! j = Some key →
  ∃ selected,
    getitem_list data (c :: cs) = Ok selected ∧
    arr = frame_to_numpy astype_common selected ∧
    items arr !! (r * length (c :: cs) + i)
    = astype_common (items (values selected))
        <$> items (values data) !! (r * length (columns data) + j).
Proof.
  intros Hshape Hlen Hnd Hno Hcall Hr Hi Hj.
  apply dmatrix_call_ok in Hcall as (names & Hsel & _).
  rewrite (features_without_tensor _ _ Hno) in Hsel.
  destruct (getitem_list data (c :: cs)) as [selected|] eqn:Hget; [|done].
  injection Hsel as <- _. exists selected. split; [done|]. split; [done|].
  unfold getitem_list in Hget.
  destruct (mapM (locate (columns data)) (c :: cs)) as [jss|] eqn:HM; [|done].
  injection Hget as <-.
  pose proof (mapM_locate_Forall2 _ _ _ Hnd HM) as Hall.
  assert (frame_rows data = m) as Hrows by (unfold frame_rows; by rewrite Hshape).
  destruct (Forall2_lookup_l _ _ _ _ _ Hall Hi) as (j' & Hj' & Hcol).
  assert (j' = j) as -> by (by eapply NoDup_lookup).
  unfold frame_to_numpy, take_frame. cbn [items values].
  rewrite list_lookup_fmap. f_equal.
  rewrite Hrows, (Forall2_length _ _ _ Hall).
  apply gather_lookup; try done.
  intros j0 (i0 & Hi0)%list_elem_of_lookup_1.
  destruct (Forall2_lookup_r _ _ _ _ _ Hall Hi0) as (key0 & _ & Hcol0).
  by eapply lookup_lt_Some.
Qed.

End Behaviour.

(** ** The behaviour above on concrete calls *)

(** The docstring's frame asked for a column [Z] it does not have. *)
Lemma selection_raises_key_error_iff_witness :
  frame_contains (LStr Fixture.TENSOR_COLUMN_NAME) Fixture.abc = false
  ∧ (Fixture.call Fixture.abc (Some [LStr "Z"]) None = Raise KeyError ↔
       KeyError = KeyError ∧
       ∃ c, c ∈ selected_columns Fixture.abc (Some [LStr "Z"]) ∧
            c ∉ columns Fixture.abc)
  ∧ Fixture.call Fixture.abc (Some [LStr "Z"]) None = Raise KeyError.
Proof.
  split; [reflexivity|]. split; [|vm_compute; reflexivity].
  apply (selection_raises_key_error_iff (Any := unit) Fixture.TENSOR_COLUMN_NAME
           Fixture.series_to_numpy
             Fixture.astype_common Fixture.abc (Some [LStr "Z"]) None KeyError).
  reflexivity.
Defined.

Lemma missing_feature_column_raises_witness :
  frame_contains (LStr Fixture.TENSOR_COLUMN_NAME) Fixture.abc = false
  ∧ LStr "Z" ∈ selected_columns Fixture.abc (Some [LStr "A"; LStr "Z"])
  ∧ (LStr "Z" ∉ columns Fixture.abc)
  ∧ Fixture.predict_pandas (Fixture.predictor (Some 3)) Fixture.abc
      (Some [LStr "A"; LStr "Z"]) None ∅ = Raise KeyError.
Proof.
  assert (LStr "Z" ∈ selected_columns Fixture.abc (Some [LStr "A"; LStr "Z"]))
    as Hin by (by apply (bool_decide_unpack _)).
  assert (LStr "Z" ∉ columns Fixture.abc)
    as Hout by (by apply (bool_decide_unpack _)).
  split; [reflexivity|]. split; [done|]. split; [done|].
  by apply (missing_feature_column_raises (Preprocessor := unit)
              Fixture.TENSOR_COLUMN_NAME Fixture.series_to_numpy Fixture.astype_common
              Fixture.xgboost_DMatrix Fixture.Booster_predict
              (Fixture.predictor (Some 3)) Fixture.abc
              (Some [LStr "A"; LStr "Z"]) None ∅ (LStr "Z")).
Defined.

(** A batch of tensors with three features, asked for the feature at
    index 3. *)
Lemma tensor_selection_raises_only_index_error_witness :
  frame_contains (LStr TensorFixture.TENSOR_COLUMN_NAME) TensorFixture.batch = true
  ∧ TensorFixture.call TensorFixture.batch (Some [LInt 3]) None = Raise IndexError
  ∧ IndexError = IndexError ∧ truthy_opt_list (Some [LInt 3]) = true.
Proof.
  split; [reflexivity|]. split; [vm_compute; reflexivity|].
  apply (tensor_selection_raises_only_index_error (Any := unit)
           TensorFixture.TENSOR_COLUMN_NAME TensorFixture.series_to_numpy
             TensorFixture.astype_common
           TensorFixture.batch (Some [LInt 3]) None IndexError);
    [reflexivity | vm_compute; reflexivity].
Defined.

Lemma tensor_column_string_feature_raises_witness :
  frame_contains (LStr TensorFixture.TENSOR_COLUMN_NAME) TensorFixture.batch = true
  ∧ LStr "A" ∈ [LInt 0; LStr "A"]
  ∧ Cases.predict_tensors {| model := (); preprocessor := None |}
      TensorFixture.batch (Some [LInt 0; LStr "A"]) None ∅ = Raise IndexError.
Proof.
  assert (LStr "A" ∈ [LInt 0; LStr "A"]) as Hin
    by (by apply (bool_decide_unpack _)).
  split; [reflexivity|]. split; [done|].
  by apply (tensor_column_string_feature_raises (Any := unit)
              (Preprocessor := unit)
              TensorFixture.TENSOR_COLUMN_NAME TensorFixture.series_to_numpy
                TensorFixture.astype_common
              (λ data _, Ok data) (λ _ matrix _, Ok matrix)
              {| model := (); preprocessor := None |}
              TensorFixture.batch [LInt 0; LStr "A"] "A" None ∅).
Defined.

(** The first and the last of three features, the last counted from the
    end. *)
Lemma tensor_column_integer_features_witness :
  getitem TensorFixture.batch (LStr TensorFixture.TENSOR_COLUMN_NAME)
  = Ok (Series [TensorFixture.Tensor [1; 2; 8]%Z; TensorFixture.Tensor [3; 4; 9]%Z])
  ∧ shape (to_numpy TensorFixture.series_to_numpy TensorFixture.astype_common
             (Series [TensorFixture.Tensor [1; 2; 8]%Z;
                      TensorFixture.Tensor [3; 4; 9]%Z])) = [2; 3]
  ∧ (∀ c', c' ∈ [LInt 0; LInt (-1)] →
       ∃ i, c' = LInt i ∧ (- Z.of_nat 3 ≤ i < Z.of_nat 3)%Z)
  ∧ TensorFixture.call TensorFixture.batch (Some [LInt 0; LInt (-1)]) None
    = Ok ({| shape := [2; 2];
             items := TensorFixture.Scalar <$> [1; 8; 3; 9]%Z |}, ∅)
  ∧ ∃ arr,
      TensorFixture.call TensorFixture.batch (Some [LInt 0; LInt (-1)]) None
      = Ok (arr, dict_or_empty None) ∧
      shape arr = [2; length [LInt 0; LInt (-1)]].
Proof.
  assert (∀ c', c' ∈ [LInt 0; LInt (-1)] →
            ∃ i, c' = LInt i ∧ (- Z.of_nat 3 ≤ i < Z.of_nat 3)%Z) as Hrange.
  { intros c' [->|[->|[]%elem_of_nil]%elem_of_cons]%elem_of_cons;
      eexists; (split; [reflexivity | lia]). }
  split; [vm_compute; reflexivity|]. split; [reflexivity|]. split; [done|].
  split; [vm_compute; reflexivity|].
  by apply (tensor_column_integer_features (Any := unit)
              TensorFixture.TENSOR_COLUMN_NAME TensorFixture.series_to_numpy
              TensorFixture.astype_common
              TensorFixture.batch (LInt 0) [LInt (-1)] None
              (Series [TensorFixture.Tensor [1; 2; 8]%Z;
                       TensorFixture.Tensor [3; 4; 9]%Z]) 2 3 []).
Defined.

(** A caller who names the features [f0], [f1] and asks for the columns
    [A], [B]: the matrix is told [A], [B]. *)
Lemma column_names_replace_caller_names_witness :
  frame_contains (LStr Fixture.TENSOR_COLUMN_NAME) Fixture.abc = false
  ∧ selected_columns Fixture.abc (Some [LStr "A"; LStr "B"]) ≠ []
  ∧ all_str (selected_columns Fixture.abc (Some [LStr "A"; LStr "B"])) = true
  ∧ Fixture.call Fixture.abc (Some [LStr "A"; LStr "B"]) (Some Cases.named)
    = Ok ({| shape := [2; 2]; items := [1; 2; 3; 4]%Z |},
          <["feature_names" := KwLabels [LStr "A"; LStr "B"]]> Cases.nthread)
  ∧ (<["feature_names" := KwLabels [LStr "A"; LStr "B"]]> Cases.nthread)
      !! "feature_names"
    = Some (KwLabels (selected_columns Fixture.abc (Some [LStr "A"; LStr "B"]))).
Proof.
  split; [reflexivity|]. split; [done|]. split; [reflexivity|].
  split; [vm_compute; reflexivity|].
  apply (column_names_replace_caller_names (Any := unit)
           Fixture.TENSOR_COLUMN_NAME Fixture.series_to_numpy
             Fixture.astype_common Fixture.abc
           (Some [LStr "A"; LStr "B"]) (Some Cases.named)
           {| shape := [2; 2]; items := [1; 2; 3; 4]%Z |});
    [reflexivity | done | reflexivity | vm_compute; reflexivity].
Defined.

Lemma other_kwargs_forwarded_witness :
  "nthread" ≠ "feature_names"
  ∧ Fixture.call Fixture.abc (Some [LStr "A"; LStr "B"]) (Some Cases.named)
    = Ok ({| shape := [2; 2]; items := [1; 2; 3; 4]%Z |},
          <["feature_names" := KwLabels [LStr "A"; LStr "B"]]> Cases.nthread)
  ∧ (<["feature_names" := KwLabels [LStr "A"; LStr "B"]]> Cases.nthread)
      !! "nthread"
    = Some Cases.named ≫= (.!! "nthread").
Proof.
  split; [done|]. split; [vm_compute; reflexivity|].
  apply (other_kwargs_forwarded (Any := unit)
           Fixture.TENSOR_COLUMN_NAME Fixture.series_to_numpy
             Fixture.astype_common Fixture.abc
           (Some [LStr "A"; LStr "B"]) (Some Cases.named)
           {| shape := [2; 2]; items := [1; 2; 3; 4]%Z |});
    [done | vm_compute; reflexivity].
Defined.

Lemma feature_names_match_array_witness :
  shape (values Fixture.abc) = [2; length (columns Fixture.abc)]
  ∧ NoDup (columns Fixture.abc)
  ∧ Some Cases.nthread ≫= (.!! "feature_names") = None
  ∧ Fixture.call Fixture.abc (Some [LStr "C"; LStr "A"]) (Some Cases.nthread)
    = Ok ({| shape := [2; 2]; items := [8; 1; 9; 3]%Z |},
          <["feature_names" := KwLabels [LStr "C"; LStr "A"]]> Cases.nthread)
  ∧ shape {| shape := [2; 2]; items := [8; 1; 9; 3]%Z |}
    = [2; length [LStr "C"; LStr "A"]].
Proof.
  assert (NoDup (columns Fixture.abc)) as Hnd
    by (by apply (bool_decide_unpack _)).
  split; [reflexivity|]. split; [done|]. split; [reflexivity|].
  split; [vm_compute; reflexivity|].
  apply (feature_names_match_array (Any := unit)
           Fixture.TENSOR_COLUMN_NAME Fixture.series_to_numpy
             Fixture.astype_common Fixture.abc
           (Some [LStr "C"; LStr "A"]) (Some Cases.nthread)
           {| shape := [2; 2]; items := [8; 1; 9; 3]%Z |}
           (<["feature_names" := KwLabels [LStr "C"; LStr "A"]]> Cases.nthread)
           2 [LStr "C"; LStr "A"]);
    [reflexivity | done | reflexivity | vm_compute; reflexivity | reflexivity].
Defined.

Lemma selected_cells_follow_request_witness :
  shape (values Fixture.abc) = [2; length (columns Fixture.abc)]
  ∧ length (items (values Fixture.abc)) = 2 * length (columns Fixture.abc)
  ∧ NoDup (columns Fixture.abc)
  ∧ frame_contains (LStr Fixture.TENSOR_COLUMN_NAME) Fixture.abc = false
  ∧ Fixture.call Fixture.abc (Some [LStr "C"; LStr "A"]) None
    = Ok ({| shape := [2; 2]; items := [8; 1; 9; 3]%Z |},
          {["feature_names" := KwLabels [LStr "C"; LStr "A"]]})
  ∧ 1 < 2
  ∧ [LStr "C"; LStr "A"] !! 0 = Some (LStr "C")
  ∧ columns Fixture.abc !! 2 = Some (LStr "C")
  ∧ ∃ selected,
      getitem_list Fixture.abc [LStr "C"; LStr "A"] = Ok selected ∧
      {| shape := [2; 2]; items := [8; 1; 9; 3]%Z |}
      = frame_to_numpy Fixture.astype_common selected ∧
      items {| shape := [2; 2]; items := [8; 1; 9; 3]%Z |}
        !! (1 * length [LStr "C"; LStr "A"] + 0)
      = Fixture.astype_common (items (values selected))
          <$> items (values Fixture.abc) !! (1 * length (columns Fixture.abc) + 2).
Proof.
  assert (NoDup (columns Fixture.abc)) as Hnd
    by (by apply (bool_decide_unpack _)).
  split; [reflexivity|]. split; [reflexivity|]. split; [done|].
  split; [reflexivity|]. split; [vm_compute; reflexivity|].
  split; [lia|]. split; [reflexivity|]. split; [reflexivity|].
  apply (selected_cells_follow_request (Any := unit)
           Fixture.TENSOR_COLUMN_NAME Fixture.series_to_numpy
             Fixture.astype_common Fixture.abc
           (LStr "C") [LStr "A"] None
           {| shape := [2; 2]; items := [8; 1; 9; 3]%Z |}
           {["feature_names" := KwLabels [LStr "C"; LStr "A"]]}
           2 1 0 2 (LStr "C"));
    [reflexivity | reflexivity | done | reflexivity | vm_compute; reflexivity
    | lia | reflexivity | reflexivity].
Defined.

(** Three scores per row on two rows. *)
Lemma prediction_values_returned_witness :
  Fixture.predict_pandas (Fixture.predictor (Some 3)) Fixture.abc None None ∅
  = Ok Fixture.three_scores
  ∧ ∃ matrix prediction m n,
      Fixture.Booster_predict (model (Fixture.predictor (Some 3))) matrix ∅
      = Ok prediction ∧
      (shape prediction = [m] ∧ n = 1 ∨ shape prediction = [m; n]) ∧
      values Fixture.three_scores
      = {| shape := [m; n]; items := items prediction |}.
Proof.
  split; [vm_compute; reflexivity|].
  apply (prediction_values_returned (Preprocessor := unit)
           Fixture.TENSOR_COLUMN_NAME Fixture.series_to_numpy Fixture.astype_common
           Fixture.xgboost_DMatrix Fixture.Booster_predict
           (Fixture.predictor (Some 3)) Fixture.abc None None ∅
           Fixture.three_scores).
  vm_compute; reflexivity.
Defined.

Lemma returned_labels_distinct_strings_witness :
  Fixture.predict_pandas (Fixture.predictor (Some 3)) Fixture.abc None None ∅
  = Ok Fixture.three_scores
  ∧ NoDup (columns Fixture.three_scores)
  ∧ all_str (columns Fixture.three_scores) = true.
Proof.
  split; [vm_compute; reflexivity|].
  apply (returned_labels_distinct_strings (Preprocessor := unit)
           Fixture.TENSOR_COLUMN_NAME Fixture.series_to_numpy Fixture.astype_common
           Fixture.xgboost_DMatrix Fixture.Booster_predict
           (Fixture.predictor (Some 3)) Fixture.abc None None ∅
           Fixture.three_scores).
  vm_compute; reflexivity.
Defined.

(** A booster returning a square of interactions per row. *)
Lemma prediction_of_other_rank_raises_witness :
  Fixture.call Fixture.abc None None
  = Ok (values Fixture.abc,
        {["feature_names" := KwLabels (columns Fixture.abc)]})
  ∧ Fixture.xgboost_DMatrix (values Fixture.abc)
      {["feature_names" := KwLabels (columns Fixture.abc)]}
    = Ok {| Fixture.dm_data := values Fixture.abc;
            Fixture.dm_kwargs :=
              {["feature_names" := KwLabels (columns Fixture.abc)]} |}
  ∧ Cases.predict_interactions 3
      {| Fixture.dm_data := values Fixture.abc;
         Fixture.dm_kwargs :=
           {["feature_names" := KwLabels (columns Fixture.abc)]} |} ∅
    = Ok {| shape := [2; 3; 3]; items := replicate 18 0%Z |}
  ∧ length [2; 3; 3] ≠ 1
  ∧ length [2; 3; 3] ≠ 2
  ∧ _predict_pandas (Preprocessor := unit) Fixture.TENSOR_COLUMN_NAME
      Fixture.series_to_numpy
        Fixture.astype_common Fixture.xgboost_DMatrix Cases.predict_interactions
      {| model := 3; preprocessor := None |} Fixture.abc None None ∅
    = Raise ValueError.
Proof.
  split; [vm_compute; reflexivity|]. split; [reflexivity|].
  split; [reflexivity|]. split; [done|]. split; [done|].
  apply (prediction_of_other_rank_raises (Preprocessor := unit)
           Fixture.TENSOR_COLUMN_NAME Fixture.series_to_numpy Fixture.astype_common
           Fixture.xgboost_DMatrix Cases.predict_interactions
           {| model := 3; preprocessor := None |} Fixture.abc None None ∅
           (values Fixture.abc)
           {["feature_names" := KwLabels (columns Fixture.abc)]}
           {| Fixture.dm_data := values Fixture.abc;
              Fixture.dm_kwargs :=
                {["feature_names" := KwLabels (columns Fixture.abc)]} |}
           {| shape := [2; 3; 3]; items := replicate 18 0%Z |});
    [vm_compute; reflexivity | reflexivity | reflexivity | done | done].
Defined.

(** [xgboost.DMatrix] refusing the array: the exception is the one that
    leaves [_predict_pandas]. *)
Lemma predict_pandas_raise_origin_witness :
  _predict_pandas (Preprocessor := unit) Fixture.TENSOR_COLUMN_NAME
    Fixture.series_to_numpy
      Fixture.astype_common Cases.refusing_DMatrix Fixture.Booster_predict
    (Fixture.predictor None) Fixture.abc None None ∅
  = Raise (LibraryError "DMatrix")
  ∧ (Fixture.call Fixture.abc None None = Raise (LibraryError "DMatrix") ∨
     ∃ arr kwargs, Fixture.call Fixture.abc None None = Ok (arr, kwargs) ∧
       (Cases.refusing_DMatrix arr kwargs = Raise (LibraryError "DMatrix") ∨
        ∃ matrix, Cases.refusing_DMatrix arr kwargs = Ok matrix ∧
          (Fixture.Booster_predict (model (Fixture.predictor None)) matrix ∅
           = Raise (LibraryError "DMatrix") ∨
           ∃ prediction,
             Fixture.Booster_predict (model (Fixture.predictor None)) matrix ∅
             = Ok prediction ∧
             output_columns prediction = None ∧
             LibraryError "DMatrix" = ValueError))).
Proof.
  split; [vm_compute; reflexivity|].
  apply (predict_pandas_raise_origin (Preprocessor := unit)
           Fixture.TENSOR_COLUMN_NAME Fixture.series_to_numpy Fixture.astype_common
           Cases.refusing_DMatrix Fixture.Booster_predict
           (Fixture.predictor None) Fixture.abc None None ∅
           (LibraryError "DMatrix")).
  vm_compute; reflexivity.
Defined.

(** A dictionary with entries, passed with a batch of tensors. *)
Lemma caller_dict_untouched_witness :
  ((∀ m, Some Cases.nthread = Some m → m = ∅)
   ∨ frame_contains (LStr Fixture.TENSOR_COLUMN_NAME) Fixture.tensor_only = true
   ∨ is_ok (Fixture.call Fixture.tensor_only None (Some Cases.nthread)) = false)
  ∧ caller_dict
      (Cases.predict_pandas_store Fixture.xgboost_DMatrix
         (Fixture.predictor None) Fixture.tensor_only None
         (Some Cases.nthread) ∅).1
    = Some Cases.nthread.
Proof.
  assert (frame_contains (LStr Fixture.TENSOR_COLUMN_NAME) Fixture.tensor_only
          = true) as Hin by reflexivity.
  split; [by right; left|].
  apply (caller_dict_untouched (Preprocessor := unit)
           Fixture.TENSOR_COLUMN_NAME Fixture.series_to_numpy Fixture.astype_common
           Fixture.xgboost_DMatrix Fixture.Booster_predict
           (Fixture.predictor None) Fixture.tensor_only None
           (Some Cases.nthread) ∅).
  by right; left.
Defined.

(** A dictionary with a thread count, passed with the docstring's frame and
    two of its columns, while [xgboost.DMatrix] refuses the array. *)
Lemma caller_dict_written_witness :
  Cases.nthread ≠ ∅
  ∧ frame_contains (LStr Fixture.TENSOR_COLUMN_NAME) Fixture.abc = false
  ∧ selected_columns Fixture.abc (Some [LStr "A"; LStr "B"]) ≠ []
  ∧ all_str (selected_columns Fixture.abc (Some [LStr "A"; LStr "B"])) = true
  ∧ (∀ c, c ∈ selected_columns Fixture.abc (Some [LStr "A"; LStr "B"]) →
          c ∈ columns Fixture.abc)
  ∧ caller_dict
      (Cases.predict_pandas_store Cases.refusing_DMatrix
         (Fixture.predictor None) Fixture.abc (Some [LStr "A"; LStr "B"])
         (Some Cases.nthread) ∅).1
    = Some (<["feature_names" :=
                KwLabels (selected_columns Fixture.abc
                            (Some [LStr "A"; LStr "B"]))]> Cases.nthread).
Proof.
  assert (Cases.nthread ≠ ∅) as Hm by apply insert_non_empty.
  assert (∀ c, c ∈ selected_columns Fixture.abc (Some [LStr "A"; LStr "B"]) →
               c ∈ columns Fixture.abc) as Hcols.
  { intros c. simpl. rewrite !elem_of_cons. tauto. }
  split; [done|]. split; [reflexivity|]. split; [done|].
  split; [reflexivity|]. split; [done|].
  by apply (caller_dict_written (Preprocessor := unit)
              Fixture.TENSOR_COLUMN_NAME Fixture.series_to_numpy Fixture.astype_common
              Cases.refusing_DMatrix Fixture.Booster_predict
              (Fixture.predictor None) Fixture.abc
              (Some [LStr "A"; LStr "B"]) Cases.nthread ∅).
Defined.

(** The same dictionary passed twice: first with the docstring's frame and
    two of its columns, then with a batch of tensors. *)
Lemma written_names_reach_next_call_witness :
  Cases.nthread ≠ ∅
  ∧ frame_contains (LStr Fixture.TENSOR_COLUMN_NAME) Fixture.abc = false
  ∧ selected_columns Fixture.abc (Some [LStr "A"; LStr "B"]) ≠ []
  ∧ all_str (selected_columns Fixture.abc (Some [LStr "A"; LStr "B"])) = true
  ∧ (∀ c, c ∈ selected_columns Fixture.abc (Some [LStr "A"; LStr "B"]) →
          c ∈ columns Fixture.abc)
  ∧ frame_contains (LStr Fixture.TENSOR_COLUMN_NAME) Fixture.tensor_only = true
  ∧ Fixture.call Fixture.tensor_only None
      (caller_dict
         (Cases.predict_pandas_store Fixture.xgboost_DMatrix
            (Fixture.predictor None) Fixture.abc (Some [LStr "A"; LStr "B"])
            (Some Cases.nthread) ∅).1)
    = Ok ({| shape := [2]; items := [5; 6]%Z |},
          <["feature_names" := KwLabels [LStr "A"; LStr "B"]]> Cases.nthread)
  ∧ (<["feature_names" := KwLabels [LStr "A"; LStr "B"]]> Cases.nthread)
      !! "feature_names"
    = Some (KwLabels (selected_columns Fixture.abc (Some [LStr "A"; LStr "B"]))).
Proof.
  assert (Cases.nthread ≠ ∅) as Hm by apply insert_non_empty.
  assert (∀ c, c ∈ selected_columns Fixture.abc (Some [LStr "A"; LStr "B"]) →
               c ∈ columns Fixture.abc) as Hcols.
  { intros c. simpl. rewrite !elem_of_cons. tauto. }
  split; [done|]. split; [reflexivity|]. split; [done|].
  split; [reflexivity|]. split; [done|]. split; [reflexivity|].
  split; [vm_compute; reflexivity|].
  apply (written_names_reach_next_call (Preprocessor := unit)
           Fixture.TENSOR_COLUMN_NAME Fixture.series_to_numpy Fixture.astype_common
           Fixture.xgboost_DMatrix Fixture.Booster_predict
           (Fixture.predictor None) Fixture.abc (Some [LStr "A"; LStr "B"])
           Cases.nthread ∅ Fixture.tensor_only None
           {| shape := [2]; items := [5; 6]%Z |});
    [done | reflexivity | done | reflexivity | done | reflexivity
    | vm_compute; reflexivity].
Defined.

(** The docstring's frame with [feature_columns=[]]: the tensor column is
    absent and the whole frame is converted. *)
Lemma empty_feature_columns_as_none_witness :
  frame_contains (LStr Fixture.TENSOR_COLUMN_NAME) Fixture.abc = false
  ∧ Fixture.predict_pandas (Fixture.predictor None) Fixture.abc (Some []) None ∅
    = Fixture.predict_pandas (Fixture.predictor None) Fixture.abc None None ∅
  ∧ ∃ kwargs,
      Fixture.call Fixture.abc (Some []) None
      = Ok (frame_to_numpy Fixture.astype_common Fixture.abc, kwargs).
Proof.
  split; [reflexivity|].
  destruct (empty_feature_columns_as_none (Preprocessor := unit)
              Fixture.TENSOR_COLUMN_NAME Fixture.series_to_numpy
              Fixture.astype_common Fixture.xgboost_DMatrix
              Fixture.Booster_predict (Fixture.predictor None) Fixture.abc
              None ∅) as (Hsame & _ & Hall & _).
  split; [exact Hsame | apply Hall; reflexivity].
Defined.

(** Two rows with the tensor column next to a column [A], and
    [feature_columns=[]]: the two calls agree, but the array handed to
    [xgboost.DMatrix] is the tensor column alone, not the conversion of all
    columns of the data. *)
Lemma empty_feature_columns_not_all_columns :
  ¬ (Fixture.predict_pandas (Fixture.predictor None) Cases.tensor_and_a
       (Some []) None ∅
     = Fixture.predict_pandas (Fixture.predictor None) Cases.tensor_and_a
         None None ∅
     ∧ ∃ kwargs,
         Fixture.call Cases.tensor_and_a (Some []) None
         = Ok (frame_to_numpy Fixture.astype_common Cases.tensor_and_a, kwargs)).
Proof.
  intros [_ [kwargs Hall]].
  assert (Fixture.call Cases.tensor_and_a (Some []) None
          = Ok ({| shape := [2]; items := [5; 6]%Z |}, ∅)) as Hcall
    by (vm_compute; reflexivity).
  rewrite Hcall in Hall. by injection Hall.
Qed.
